(** * optuna.visualization._utils: a shallow embedding and its properties

    The Python module [optuna/visualization/_utils.py] is embedded function by
    function.  Python values are a small inductive universe, the
    dictionaries of a trial are insertion-ordered association lists, the two
    classification tables built by [_preprocess_trial_params] are finite maps,
    the set of skipped trial numbers is a finite set, and the effects of the
    module (raising, [warnings.warn], [_logger.warning]) are a
    writer/exception monad.  The [json] library is embedded as far as the
    module and its contract use it: the encoder with the exceptions that
    stop it and the text it writes, and the decoder of that text. *)

From Stdlib Require Import ZArith String Ascii List Bool Lia.
From Stdlib Require Import Floats.SpecFloat.
From stdpp Require Import gmap strings list pretty.

Set Warnings "-register-all".
Local Open Scope string_scope.
Local Open Scope list_scope.
Local Open Scope Z_scope.

(** ** Python values *)

(** The run-time values the module handles.  A Python [float] is an IEEE-754
    binary64 datum ([spec_float]: zero, finite, infinity, NaN); a [str] is a
    sequence of characters below U+0100 (so no surrogate code point occurs in
    a string); [VList], [VTuple] and [VDict] are the containers that are
    finite trees, nested within the recursion limit of the interpreter;
    [VCyclic] is a list or a dict that contains itself, directly or through
    its items, known by its class name and an identity, and in which nothing
    but the cycle stops an encoder; [VObj] is any other object (a set, a
    bytes object, a numpy scalar, an instance of a user class...), known by
    its class name and an identity. *)
Inductive pyval : Type :=
| VNone
| VBool (b : bool)
| VInt (z : Z)
| VFloat (f : spec_float)
| VStr (s : string)
| VList (l : list pyval)
| VTuple (l : list pyval)
| VDict (d : list (string * pyval))
| VObj (cls : string) (oid : N)
| VCyclic (cls : string) (oid : N).

(** [type(v).__name__] *)
Definition py_type_name (v : pyval) : string :=
  match v with
  | VNone => "NoneType"
  | VBool _ => "bool"
  | VInt _ => "int"
  | VFloat _ => "float"
  | VStr _ => "str"
  | VList _ => "list"
  | VTuple _ => "tuple"
  | VDict _ => "dict"
  | VObj cls _ => cls
  | VCyclic cls _ => cls
  end.

(** [isinstance(v, (int, float))]: [bool] is a subclass of [int], so a
    boolean passes this test too. *)
Definition isinstance_int_float (v : pyval) : bool :=
  match v with
  | VBool _ | VInt _ | VFloat _ => true
  | _ => false
  end.

(** [isinstance(v, bool)] *)
Definition isinstance_bool (v : pyval) : bool :=
  match v with
  | VBool _ => true
  | _ => false
  end.

(** [np.isfinite] on a Python float *)
Definition isfinite (f : spec_float) : bool :=
  match f with
  | S754_zero _ | S754_finite _ _ _ => true
  | S754_infinity _ | S754_nan => false
  end.

(** Insertion-ordered dictionaries with [str] keys, read by key. *)
Fixpoint dict_get {V : Type} (k : string) (d : list (string * V)) : option V :=
  match d with
  | [] => None
  | (k', v) :: d' => if decide (k = k') then Some v else dict_get k d'
  end.

(** [k in d] *)
Definition dict_contains {V : Type} (k : string) (d : list (string * V)) : bool :=
  match dict_get k d with
  | Some _ => true
  | None => false
  end.

(** ** Exceptions and effects *)

Inductive exn : Type :=
| ValueError (msg : string)
| TypeError (msg : string)
| OverflowError (msg : string)
| AssertionError (msg : string).

Inductive outcome (A : Type) : Type :=
| Return (a : A)
| Raise (e : exn).
Arguments Return {A} a.
Arguments Raise {A} e.

(** What a call leaves behind besides its outcome. *)
Inductive event : Type :=
| warnings_warn (msg : string)
| logger_warning (msg : string).

(** A computation: the events it emitted, in order, and how it ended. *)
Definition M (A : Type) : Type := list event * outcome A.

Definition ret {A} (a : A) : M A := ([], Return a).
Definition raise {A} (e : exn) : M A := ([], Raise e).
Definition emit (ev : event) : M unit := ([ev], Return tt).

Definition bind {A B} (m : M A) (k : A -> M B) : M B :=
  match m with
  | (evs, Return a) => let (evs', o) := k a in (evs ++ evs', o)
  | (evs, Raise e) => (evs, Raise e)
  end.

#[global] Instance M_ret : MRet M := @ret.
#[global] Instance M_bind : MBind M := fun A B k m => bind m k.

Definition obind {A B} (o : outcome A) (k : A -> outcome B) : outcome B :=
  match o with
  | Return a => k a
  | Raise e => Raise e
  end.

(** [except (ValueError, TypeError)] *)
Definition is_ValueError_or_TypeError (e : exn) : bool :=
  match e with
  | ValueError _ | TypeError _ => true
  | _ => false
  end.

(** ** Integers as text *)

(** The number of decimal digits of an integer. *)
Definition int_digits (z : Z) : nat := String.length (pretty (Z.abs z)).

(** [sys.int_info.default_max_str_digits] *)
Definition MAX_STR_DIGITS : nat := 4300.

(** [int.__repr__]: CPython refuses, with [ValueError], to write an integer
    of more than 4300 digits in decimal. *)
Definition int_repr (z : Z) : outcome string :=
  if (int_digits z <=? MAX_STR_DIGITS)%nat then Return (pretty z)
  else Raise (ValueError
    ("Exceeds the limit (4300 digits) for integer string conversion; " +:+
     "use sys.set_int_max_str_digits() to increase the limit")).
Arguments int_repr : simpl never.

(** ** The data model *)

Inductive StudyDirection : Type := NOT_SET | MINIMIZE | MAXIMIZE.

(** Modelled from the spec: the [Study] class is not part of the sources; the
    spec describes a study-like object exposing an optimization-sense flag
    and a multi-objective flag. *)
Record Study : Type := {
  direction : StudyDirection;
  _is_multi_objective : bool
}.

(** Modelled from the spec: the distribution classes are not part of the
    sources; the spec describes a tagged variant over Float, Int and
    Categorical, the first two with a [log] flag, the last with its ordered
    choices.  [OtherDistribution] stands for an object of any other class,
    which the [isinstance] tests of the source tell apart. *)
Inductive Distribution : Type :=
| FloatDistribution (log : bool)
| IntDistribution (log : bool)
| CategoricalDistribution (choices : list pyval)
| OtherDistribution (cls : string).

(** Modelled from the spec: the [FrozenTrial] class is not part of the
    sources; the spec describes an immutable snapshot with an integer
    [number], objective [values] and single [value], and the mappings
    [params], [distributions] and [user_attrs]. *)
Record FrozenTrial : Type := {
  number : Z;
  value : option spec_float;
  values : option (list spec_float);
  params : list (string * pyval);
  distributions : list (string * Distribution);
  user_attrs : list (string * pyval)
}.

(** The [study] argument of [_check_plot_args]: [Study | Sequence[Study]]. *)
Inductive study_arg : Type :=
| OneStudy (s : Study)
| ManyStudies (l : list Study).

(** [x is None] *)
Definition is_None {A : Type} (x : option A) : bool :=
  match x with
  | None => true
  | Some _ => false
  end.

(** ** Strings *)

(** [s.startswith(pre)] *)
Fixpoint startswith (s pre : string) {struct pre} : bool :=
  match pre with
  | EmptyString => true
  | String a pre' =>
      match s with
      | EmptyString => false
      | String b s' => Ascii.eqb a b && startswith s' pre'
      end
  end.

(** [s.replace(old, new)] for a non-empty [old] (both uses below): the
    occurrences of [old] are found from left to right and do not overlap;
    [skip] counts the characters of an occurrence still to be passed over. *)
Fixpoint str_replace_from (old new : string) (skip : nat) (s : string) : string :=
  match s with
  | EmptyString => ""
  | String c s' =>
      match skip with
      | S k => str_replace_from old new k s'
      | O =>
          if startswith s old
          then new +:+ str_replace_from old new (Nat.pred (String.length old)) s'
          else String c (str_replace_from old new 0 s')
      end
  end.

Definition str_replace (old new s : string) : string :=
  str_replace_from old new 0 s.


(** ** The [json] library, as far as the module uses it *)

Module Json.

(** A JSON document.  Python's encoder also writes the floats that are not
    numbers of JSON ([NaN], [Infinity], [-Infinity]), and its decoder reads
    them back, so [JFloat] carries any float. *)
Inductive json : Type :=
| JNull
| JBool (b : bool)
| JInt (z : Z)
| JFloat (f : spec_float)
| JStr (s : string)
| JArr (items : list json)
| JObj (members : list (string * json)).

#[global] Instance outcome_ret : MRet outcome := @Return.
#[global] Instance outcome_bind : MBind outcome := fun A B k o => obind o k.

(** Running [f] on the elements of a list from left to right, up to the
    first one that raises. *)
Definition traverse {A B : Type} (f : A -> outcome B) : list A -> outcome (list B) :=
  fix go (l : list A) : outcome (list B) :=
    match l with
    | [] => Return []
    | x :: r => y ← f x; ys ← go r; Return (y :: ys)
    end.

(** *** The encoder *)

(** The document [json.dumps] writes for a value, or the exception that
    stops it, the first one met in document order: lists and tuples both
    become arrays; an integer is written by [int.__repr__], which raises
    [ValueError] beyond 4300 digits; an object the encoder does not know
    raises [TypeError]; a container met again inside itself raises
    [ValueError]. *)
Fixpoint to_json (v : pyval) : outcome json :=
  match v with
  | VNone => Return JNull
  | VBool b => Return (JBool b)
  | VInt z => int_repr z ;; Return (JInt z)
  | VFloat f => Return (JFloat f)
  | VStr s => Return (JStr s)
  | VList l | VTuple l =>
      items ← traverse to_json l; Return (JArr items)
  | VDict d =>
      members ← traverse (fun kv => j ← to_json kv.2; Return (kv.1, j)) d;
      Return (JObj members)
  | VObj cls _ =>
      Raise (TypeError ("Object of type " +:+ cls +:+ " is not JSON serializable"))
  | VCyclic _ _ => Raise (ValueError "Circular reference detected")
  end.

Definition NL : ascii := "010"%char.
Definition QUOTE : ascii := "034"%char.
Definition BACKSLASH : ascii := "092"%char.

Definition hex_digit (n : N) : ascii :=
  ascii_of_N (if (n <? 10)%N then 48 + n else 87 + n)%N.

(** [ESCAPE_DCT] and the [\uXXXX] fallback of [encode_basestring_ascii]:
    every character outside [' '..'~'], the quote and the backslash are
    escaped. *)
Definition escape_char (c : ascii) : string :=
  let n := N_of_ascii c in
  if Ascii.eqb c QUOTE then String BACKSLASH (String QUOTE "")
  else if Ascii.eqb c BACKSLASH then String BACKSLASH (String BACKSLASH "")
  else if (n =? 8)%N then "\b"
  else if (n =? 9)%N then "\t"
  else if (n =? 10)%N then "\n"
  else if (n =? 12)%N then "\f"
  else if (n =? 13)%N then "\r"
  else if ((32 <=? n) && (n <=? 126))%N then String c ""
  else "\u00" +:+ String (hex_digit (n / 16)) (String (hex_digit (n mod 16)) "").

Fixpoint escape_chars (s : string) : string :=
  match s with
  | EmptyString => ""
  | String c s' => escape_char c +:+ escape_chars s'
  end.

Definition encode_basestring_ascii (s : string) : string :=
  String QUOTE (escape_chars s +:+ String QUOTE "").

Fixpoint spaces (n : nat) : string :=
  match n with
  | O => ""
  | S n' => String " " (spaces n')
  end.

Section Render.
(** [float.__repr__], the shortest decimal string that reads back as the
    same float: a builtin, taken as given. *)
Variable float_repr : spec_float -> string.

Definition floatstr (f : spec_float) : string :=
  match f with
  | S754_nan => "NaN"
  | S754_infinity false => "Infinity"
  | S754_infinity true => "-Infinity"
  | _ => float_repr f
  end.

(** [indent]: [None] for the compact form, [Some n] for [indent=n]. *)
Variable indent : option nat.

Definition newline_indent (level : nat) : string :=
  match indent with
  | None => ""
  | Some n => String NL (spaces (n * level))
  end.

Definition item_separator : string :=
  match indent with
  | None => ", "
  | Some _ => ","
  end.

Definition key_separator : string := ": ".

Fixpoint render (level : nat) (j : json) : string :=
  match j with
  | JNull => "null"
  | JBool true => "true"
  | JBool false => "false"
  | JInt z => pretty z
  | JFloat f => floatstr f
  | JStr s => encode_basestring_ascii s
  | JArr [] => "[]"
  | JArr (x :: xs) =>
      "[" +:+ newline_indent (S level) +:+ render (S level) x +:+
      (fix rest (xs : list json) : string :=
         match xs with
         | [] => ""
         | y :: ys =>
             item_separator +:+ newline_indent (S level) +:+
             render (S level) y +:+ rest ys
         end) xs +:+
      newline_indent level +:+ "]"
  | JObj [] => "{}"
  | JObj ((k, x) :: xs) =>
      "{" +:+ newline_indent (S level) +:+
      encode_basestring_ascii k +:+ key_separator +:+ render (S level) x +:+
      (fix rest (xs : list (string * json)) : string :=
         match xs with
         | [] => ""
         | (k', y) :: ys =>
             item_separator +:+ newline_indent (S level) +:+
             encode_basestring_ascii k' +:+ key_separator +:+
             render (S level) y +:+ rest ys
         end) xs +:+
      newline_indent level +:+ "}"
  end.

(** [json.dumps(v, indent=indent)] *)
Definition dumps (v : pyval) : outcome string :=
  j ← to_json v; Return (render 0 j).
End Render.

(** *** The decoder *)






Definition is_digit (c : ascii) : bool :=
  let n := N_of_ascii c in ((48 <=? n) && (n <=? 57))%N.









Definition digit_value (c : ascii) : Z := Z.of_N (N_of_ascii c) - 48.




Section Decode.
(** [float(s)], which reads the numbers that have a fraction or an
    exponent ([None] where it raises). *)
Variable float_of_str : string -> option spec_float.





End Decode.

End Json.

(** ** An instance of the builtins

    The module is embedded over the interpreter's [str], [repr],
    [float.__repr__], float parsing and the conversion of an object by
    [float].  This instance is used to run the embedding on concrete trials;
    it is exact on the scalars those trials use (None, booleans, integers,
    strings, objects, the special floats and the floats that are integers
    below 10**16) and is not meant to be more. *)
Module Builtins.

Definition float_repr (f : spec_float) : string :=
  match f with
  | S754_zero false => "0.0"
  | S754_zero true => "-0.0"
  | S754_infinity false => "inf"
  | S754_infinity true => "-inf"
  | S754_nan => "nan"
  | S754_finite s m e =>
      (if s then "-" else "") +:+
      (if (0 <=? e)%Z
       then pretty (Z.pos m * 2 ^ e)%Z +:+ ".0"
       else if (Z.pos m mod 2 ^ (- e) =? 0)%Z
            then pretty (Z.pos m / 2 ^ (- e))%Z +:+ ".0"
            else pretty (Z.pos m) +:+ "*2**" +:+ pretty e)
  end.

Definition text (v : pyval) : string :=
  match v with
  | VNone => "None"
  | VBool true => "True"
  | VBool false => "False"
  | VInt z => pretty z
  | VFloat f => float_repr f
  | VStr s => s
  | VList _ => "[...]"
  | VTuple _ => "(...)"
  | VDict _ => "{...}"
  | VCyclic _ _ => "[[...]]"
  | VObj cls oid => "<" +:+ cls +:+ " object at " +:+ pretty oid +:+ ">"
  end.

(** [str(v)]; it is [int.__repr__] that writes an integer. *)
Definition str (v : pyval) : outcome string :=
  match v with
  | VInt z => int_repr z
  | _ => Return (text v)
  end.

Definition repr (v : pyval) : string :=
  match v with
  | VStr s => "'" +:+ s +:+ "'"
  | _ => text v
  end.

Definition float_of_str (s : string) : option spec_float :=
  if decide (s = "nan") then Some S754_nan
  else if decide (s = "inf") then Some (S754_infinity false)
  else if decide (s = "-inf") then Some (S754_infinity true)
  else if decide (s = "1.0") then Some (S754_finite false 4503599627370496 (-52))
  else None.

(** [float] on an object.  The sample objects of class float32 stand for
    the numpy scalars whose value is their identity number; the other
    classes have no [__float__] and no [__index__]. *)
Definition float_of_obj (cls : string) (oid : N) : outcome spec_float :=
  if decide (cls = "float32")
  then Return (binary_normalize 53 1024 (Z.of_N oid) 0 false)
  else Raise (TypeError ("float() argument must be a string or a real number, not '"
                         +:+ cls +:+ "'")).

End Builtins.

(** ** Sample trials *)

Module Samples.

(** The float [1.0]. *)
Definition one : spec_float := S754_finite false 4503599627370496 (-52).

(** Trials with a single objective value and nothing else. *)
Definition t_inf : FrozenTrial :=
  {| number := 0; value := Some (S754_infinity false);
     values := Some [S754_infinity false];
     params := []; distributions := []; user_attrs := [] |}.

Definition t_one : FrozenTrial :=
  {| number := 1; value := Some one; values := Some [one];
     params := []; distributions := []; user_attrs := [] |}.





(** Trials told apart by their params: [with_x], of number 0, has the
    parameter "x", and [other_without_x], of number 1, has not. *)
Definition with_x : FrozenTrial :=
  {| number := 0; value := Some one; values := Some [one];
     params := [("x", VInt 1)]; distributions := []; user_attrs := [] |}.

Definition other_without_x : FrozenTrial :=
  {| number := 1; value := Some one; values := Some [one];
     params := []; distributions := []; user_attrs := [] |}.

(** "x" is log-scaled in trial 0 and not in trial 1; "c" is categorical
    with a boolean among its choices. *)
Definition log_first : FrozenTrial :=
  {| number := 0; value := Some one; values := Some [one];
     params := [("x", VFloat one)];
     distributions := [("x", FloatDistribution true)]; user_attrs := [] |}.

Definition linear_second : FrozenTrial :=
  {| number := 1; value := Some one; values := Some [one];
     params := [("x", VFloat one); ("c", VInt 1)];
     distributions := [("x", FloatDistribution false);
                       ("c", CategoricalDistribution [VInt 1; VBool true])];
     user_attrs := [] |}.



(** A set as a user attribute, and as a parameter value. *)
Definition set_attr : FrozenTrial :=
  {| number := 3; value := Some one; values := Some [one];
     params := [("x", VInt 3)]; distributions := [];
     user_attrs := [("u", VObj "set" 0)] |}.

Definition set_param : FrozenTrial :=
  {| number := 4; value := Some one; values := Some [one];
     params := [("x", VObj "set" 0)]; distributions := [];
     user_attrs := [("u", VObj "set" 0)] |}.

End Samples.

(** ** Further sample trials *)

Module EdgeSamples.

(** A trial that declares, for "x", a distribution of another class. *)
Definition other_for_x : FrozenTrial :=
  {| number := 5; value := Some Samples.one; values := Some [Samples.one];
     params := [("x", VInt 1)];
     distributions := [("x", OtherDistribution "MyDistribution")];
     user_attrs := [] |}.


(** An integer of 4301 digits. *)
Definition huge_int : pyval := VInt (10 ^ 4300).


(** A trial whose user attributes are encodable. *)
Definition plain_attrs : FrozenTrial :=
  {| number := 6; value := Some Samples.one; values := Some [Samples.one];
     params := [("x", VInt 3)]; distributions := [];
     user_attrs := [("note", VStr "ok"); ("seed", VInt 7)] |}.

End EdgeSamples.

(** ** The module *)

Section Utils.

(** The builtins [str], [repr], [float.__repr__], the parsing of a string
    by [float] and the conversion of an object by [float] belong to the
    interpreter and to the classes of the objects; the module is embedded
    over any of them.  [py_str v] is how [str(v)] ends (it raises on an
    integer of more than 4300 digits, and runs the [__str__] of an object);
    [float_of_str s = None] when [float(s)] raises [ValueError];
    [float_of_obj cls oid] is how [float] ends on the object: the result of
    its [__float__] or [__index__], the parsing of a bytes object, or the
    [TypeError] of an object that has none of these. *)
Variable py_str : pyval -> outcome string.
Variable py_repr : pyval -> string.
Variable float_repr : spec_float -> string.
Variable float_of_str : string -> option spec_float.
Variable float_of_obj : string -> N -> outcome spec_float.

(** [float(v)]: a float is itself, an [int] (or [bool]) is rounded to the
    nearest binary64 and overflows with [OverflowError], a string is
    parsed, an object is converted by its class, and [None] and the
    containers have no conversion. *)
Definition py_float (v : pyval) : outcome spec_float :=
  match v with
  | VFloat f => Return f
  | VBool b => Return (binary_normalize 53 1024 (if b then 1 else 0) 0 false)
  | VInt z =>
      match binary_normalize 53 1024 z 0 false with
      | S754_infinity _ => Raise (OverflowError "int too large to convert to float")
      | f => Return f
      end
  | VStr s =>
      match float_of_str s with
      | Some f => Return f
      | None => Raise (ValueError ("could not convert string to float: " +:+ py_repr v))
      end
  | VObj cls oid => float_of_obj cls oid
  | VNone | VList _ | VTuple _ | VDict _ | VCyclic _ _ =>
      Raise (TypeError ("float() argument must be a string or a real number, not '"
                        +:+ py_type_name v +:+ "'"))
  end.

(** *** [_check_plot_args] *)

Definition _check_plot_args {T : Type}
    (study : study_arg) (target : option T) (target_name : string) : M unit :=
  let studies := match study with
                 | OneStudy s => [s]
                 | ManyStudies l => l
                 end in
  (if is_None target && existsb _is_multi_objective studies
   then raise (ValueError
     ("If the `study` is being used for multi-objective optimization, " +:+
      "please specify the `target`."))
   else ret tt) ;;
  (if negb (is_None target) && bool_decide (target_name = "Objective Value")
   then emit (warnings_warn
     "`target` is specified, but `target_name` is the default value, 'Objective Value'.")
   else ret tt).

(** *** [_preprocess_trial_params] *)

(** The loop body for one [(param, dist)] item of [trial.distributions],
    on the pair of tables built so far. *)
Definition classify_item (tables : gmap string bool * gmap string bool)
    (param : string) (dist : Distribution)
    : outcome (gmap string bool * gmap string bool) :=
  let '(is_log_scale, is_numerical) := tables in
  let is_log_scale :=
    match is_log_scale !! param with
    | None =>
        <[param := match dist with
                   | FloatDistribution log | IntDistribution log => log
                   | _ => false
                   end]> is_log_scale
    | Some _ => is_log_scale
    end in
  match is_numerical !! param with
  | None =>
      match dist with
      | IntDistribution _ | FloatDistribution _ =>
          Return (is_log_scale, <[param := true]> is_numerical)
      | CategoricalDistribution choices =>
          Return (is_log_scale,
                  <[param := forallb (fun v => isinstance_int_float v
                                               && negb (isinstance_bool v)) choices]>
                    is_numerical)
      | OtherDistribution _ =>
          Raise (AssertionError "Unexpected distribution type in trial parameter.")
      end
  | Some _ => Return (is_log_scale, is_numerical)
  end.

(** [for param, dist in trial.distributions.items()] *)
Fixpoint classify_items (tables : gmap string bool * gmap string bool)
    (items : list (string * Distribution))
    : outcome (gmap string bool * gmap string bool) :=
  match items with
  | [] => Return tables
  | (param, dist) :: rest =>
      tables' ← classify_item tables param dist; classify_items tables' rest
  end.

(** [for trial in trials] *)
Fixpoint classify_trials (tables : gmap string bool * gmap string bool)
    (trials : list FrozenTrial)
    : outcome (gmap string bool * gmap string bool) :=
  match trials with
  | [] => Return tables
  | trial :: rest =>
      tables' ← classify_items tables (distributions trial);
      classify_trials tables' rest
  end.

Definition _preprocess_trial_params (trials : list FrozenTrial)
    : outcome (gmap string bool * gmap string bool) :=
  classify_trials (∅, ∅) trials.

Definition _is_log_scale (trials : list FrozenTrial) (param : string)
    (is_log_scale : gmap string bool) : bool :=
  default false (is_log_scale !! param).

Definition _is_numerical (trials : list FrozenTrial) (param : string)
    (is_numerical : gmap string bool) : bool :=
  default false (is_numerical !! param).

(** A call of [_is_numerical] with two or three positional arguments: the
    third parameter has no default value, so binding the arguments fails
    with [TypeError] when it is not supplied. *)
Definition call__is_numerical (trials : list FrozenTrial) (param : string)
    (is_numerical : option (gmap string bool)) : outcome bool :=
  match is_numerical with
  | Some tbl => Return (_is_numerical trials param tbl)
  | None =>
      Raise (TypeError
        "_is_numerical() missing 1 required positional argument: 'is_numerical'")
  end.

(** *** [_get_param_values] *)

Definition _get_param_values (trials : list FrozenTrial) (p_name : string)
    : outcome (list pyval) :=
  let values := omap (fun t => dict_get p_name (params t)) trials in
  numerical ← call__is_numerical trials p_name None;
  if numerical : bool then Return values
  else Json.traverse (fun v => s ← py_str v; Return (VStr s)) values.

(** *** [_get_skipped_trial_numbers] *)

(** [for used_param in used_param_names], left by [break] at the first
    name the trial lacks. *)
Fixpoint skip_if_missing (trial : FrozenTrial) (used_param_names : list string)
    (skipped_trial_numbers : gset Z) : gset Z :=
  match used_param_names with
  | [] => skipped_trial_numbers
  | used_param :: rest =>
      if negb (dict_contains used_param (params trial))
      then {[number trial]} ∪ skipped_trial_numbers
      else skip_if_missing trial rest skipped_trial_numbers
  end.

Fixpoint skipped_loop (trials : list FrozenTrial) (used_param_names : list string)
    (skipped_trial_numbers : gset Z) : gset Z :=
  match trials with
  | [] => skipped_trial_numbers
  | trial :: rest =>
      skipped_loop rest used_param_names
        (skip_if_missing trial used_param_names skipped_trial_numbers)
  end.

Definition _get_skipped_trial_numbers (trials : list FrozenTrial)
    (used_param_names : list string) : gset Z :=
  skipped_loop trials used_param_names ∅.

(** *** [_filter_nonfinite] *)

(** The accessor used when [target is None]: [t.value]. *)
Definition _target (t : FrozenTrial) : pyval :=
  match value t with
  | Some f => VFloat f
  | None => VNone
  end.

Definition cast_warning (trial : FrozenTrial) (value : pyval) : string :=
  "Trial" +:+ pretty (number trial) +:+ "'s target value " +:+ py_repr value
  +:+ " could not be cast to float.".

Definition omitted_message (trial : FrozenTrial) : string :=
  "Trial " +:+ pretty (number trial) +:+ " is omitted in visualization "
  +:+ "because its objective value is inf or nan.".

(** [for trial in trials], with the list [filtered_trials] it appends to. *)
Fixpoint filter_loop (target : FrozenTrial -> pyval) (with_message : bool)
    (trials filtered_trials : list FrozenTrial) : M (list FrozenTrial) :=
  match trials with
  | [] => ret filtered_trials
  | trial :: rest =>
      let value := target trial in
      match py_float value with
      | Raise e =>
          if is_ValueError_or_TypeError e
          then emit (warnings_warn (cast_warning trial value)) ;; raise e
          else raise e
      | Return value =>
          if negb (isfinite value)
          then (if with_message
                then emit (logger_warning (omitted_message trial))
                else ret tt) ;;
               filter_loop target with_message rest filtered_trials
          else filter_loop target with_message rest (filtered_trials ++ [trial])
      end
  end.

Definition _filter_nonfinite (trials : list FrozenTrial)
    (target : option (FrozenTrial -> pyval)) (with_message : bool)
    : M (list FrozenTrial) :=
  let target := match target with
                | None => _target
                | Some f => f
                end in
  filter_loop target with_message trials [].

(** *** [_is_reverse_scale] *)

Definition _is_reverse_scale {T : Type} (study : Study) (target : option T) : bool :=
  negb (is_None target) ||
  match direction study with
  | MINIMIZE => true
  | _ => false
  end.

(** *** [_make_json_compatible] and [_make_hovertext] *)

Definition _make_json_compatible (value : pyval) : outcome pyval :=
  match Json.dumps float_repr None value with
  | Return _ => Return value
  | Raise (TypeError _) => s ← py_str value; Return (VStr s)
  | Raise e => Raise e
  end.

(** [{key: _make_json_compatible(value) for key, value in d.items()}] *)
Definition compatible_items (d : list (string * pyval))
    : outcome (list (string * pyval)) :=
  Json.traverse (fun kv => v ← _make_json_compatible kv.2; Return (kv.1, v)) d.

(** [trial.values] as a value: [None] or a list of floats. *)
Definition values_of (trial : FrozenTrial) : pyval :=
  match values trial with
  | None => VNone
  | Some l => VList (map VFloat l)
  end.

(** The dictionary handed to [json.dumps]. *)
Definition hover_dict (trial : FrozenTrial) (user_attrs : list (string * pyval))
    : pyval :=
  let user_attrs_dict :=
    match user_attrs with
    | [] => []
    | _ :: _ => [("user_attrs", VDict user_attrs)]
    end in
  VDict ([("number", VInt (number trial));
          ("values", values_of trial);
          ("params", VDict (params trial))] ++ user_attrs_dict).

Definition _make_hovertext (trial : FrozenTrial) : outcome string :=
  user_attrs ← compatible_items (user_attrs trial);
  text ← Json.dumps float_repr (Some 2%nat) (hover_dict trial user_attrs);
  Return (str_replace (String Json.NL "") "<br>" text).

(** ** The vocabulary of the properties *)

(** *** For [_check_plot_args] *)

(** The studies a [study] argument stands for. *)
Definition studies_of (study : study_arg) : list Study :=
  match study with
  | OneStudy s => [s]
  | ManyStudies l => l
  end.

(** The two messages of the source. *)
Definition multi_objective_message : string :=
  "If the `study` is being used for multi-objective optimization, " +:+
  "please specify the `target`.".

Definition default_name_message : string :=
  "`target` is specified, but `target_name` is the default value, 'Objective Value'.".

(** *** For [_get_skipped_trial_numbers] *)

(** The trial lacks one of the required names. *)
Definition lacks_param (used_param_names : list string) (t : FrozenTrial) : Prop :=
  exists p, p ∈ used_param_names /\ dict_contains p (params t) = false.

(** The result holds exactly the numbers of the trials lacking a name. *)
Definition exactly_the_lacking (trials : list FrozenTrial)
    (used_param_names : list string) : Prop :=
  forall n, n ∈ _get_skipped_trial_numbers trials used_param_names
            <-> exists t, t ∈ trials /\ number t = n /\ lacks_param used_param_names t.

(** No trial with all the required names has its number in the result. *)
Definition complete_never_skipped (trials : list FrozenTrial)
    (used_param_names : list string) : Prop :=
  forall t, t ∈ trials -> ~ lacks_param used_param_names t ->
            number t ∉ _get_skipped_trial_numbers trials used_param_names.

(** Modelled from the spec: [number] is the identifier of a trial, so two
    records of a list that bear the same number are the same trial. *)
Definition number_identifies (trials : list FrozenTrial) : Prop :=
  forall t t', t ∈ trials -> t' ∈ trials -> number t = number t' -> t = t'.

(** *** For [_filter_nonfinite] *)

(** The value a trial is filtered by: [target(trial)], or [trial.value]
    when no accessor is given. *)
Definition resolved (target : option (FrozenTrial -> pyval)) (t : FrozenTrial)
    : pyval :=
  match target with
  | None => _target t
  | Some f => f t
  end.

(** [float] accepts the resolved value. *)
Definition convertible (target : option (FrozenTrial -> pyval)) (t : FrozenTrial)
    : Prop :=
  exists f, py_float (resolved target t) = Return f.

(** The resolved value is a finite real number. *)
Definition finite_target (target : option (FrozenTrial -> pyval)) (t : FrozenTrial)
    : bool :=
  match py_float (resolved target t) with
  | Return f => isfinite f
  | Raise _ => false
  end.

(** The trials kept and the trials dropped, in input order. *)
Definition kept (target : option (FrozenTrial -> pyval)) (trials : list FrozenTrial)
    : list FrozenTrial :=
  filter (fun t => finite_target target t = true) trials.

Definition dropped (target : option (FrozenTrial -> pyval))
    (trials : list FrozenTrial) : list FrozenTrial :=
  filter (fun t => finite_target target t = false) trials.

(** The log of a run over [trials]: one message per dropped trial, in
    order, when the flag is set. *)
Definition omitted_log (target : option (FrozenTrial -> pyval)) (with_message : bool)
    (trials : list FrozenTrial) : list event :=
  if with_message
  then map (fun t => logger_warning (omitted_message t)) (dropped target trials)
  else [].




(** *** For [_preprocess_trial_params] *)

(** All the [(param, dist)] items the two loops visit, in order. *)
Definition all_items (trials : list FrozenTrial) : list (string * Distribution) :=
  flat_map distributions trials.

(** The first distribution observed for a name in a batch. *)
Definition first_dist (param : string) (trials : list FrozenTrial)
    : option Distribution :=
  dict_get param (all_items trials).

(** [isinstance(dist, (FloatDistribution, IntDistribution)) and dist.log] *)
Definition log_flag (dist : Distribution) : bool :=
  match dist with
  | FloatDistribution log | IntDistribution log => log
  | _ => false
  end.

(** A real number that is not a boolean: an [int] or a [float]. *)
Definition real_not_bool (v : pyval) : Prop :=
  (exists z, v = VInt z) \/ (exists f, v = VFloat f).

(** The numerical classification a distribution yields, if it has one. *)
Definition numerical_kind (dist : Distribution) : option bool :=
  match dist with
  | FloatDistribution _ | IntDistribution _ => Some true
  | CategoricalDistribution choices =>
      Some (forallb (fun v => isinstance_int_float v && negb (isinstance_bool v))
              choices)
  | OtherDistribution _ => None
  end.

(** Float, Int or Categorical. *)
Definition known_kind (dist : Distribution) : Prop :=
  match dist with
  | OtherDistribution _ => False
  | _ => True
  end.

(** An entry once set stays; an absent one takes the new value. *)
Definition first_wins {A : Type} (old new : option A) : option A :=
  match old with
  | Some b => Some b
  | None => new
  end.

(** *** For [_make_json_compatible] and [_make_hovertext] *)

(** The newline, and the marker that takes its place. *)
Definition NEWLINE : string := String Json.NL "".
Definition LINE_BREAK : string := "<br>".



(** [json.dumps(v)] does not raise. *)
Definition json_encodable (v : pyval) : Prop :=
  exists j, Json.to_json v = Return j.

(** [json.dumps(v)] raises [TypeError] and [str(v)] returns: the case in
    which [_make_json_compatible] falls back on the text of the value. *)
Definition falls_back (v : pyval) : Prop :=
  exists msg s, Json.to_json v = Raise (TypeError msg) /\ py_str v = Return s.













(** The JSON text [_make_hovertext] obtains from [json.dumps], before the
    line breaks are substituted. *)
Definition hover_json_text (t : FrozenTrial) : outcome string :=
  attrs ← compatible_items (user_attrs t);
  Json.dumps float_repr (Some 2%nat) (hover_dict t attrs).



(** ** Properties *)

(** *** Argument validation *)

Lemma check_plot_args_cases {T : Type}
    (study : study_arg) (target : option T) (target_name : string) :
  _check_plot_args study target target_name =
  if is_None target && existsb _is_multi_objective (studies_of study)
  then ([], Raise (ValueError multi_objective_message))
  else if negb (is_None target) && bool_decide (target_name = "Objective Value")
       then ([warnings_warn default_name_message], Return tt)
       else ([], Return tt).
Proof.
  unfold _check_plot_args. fold (studies_of study).
  destruct (is_None target && existsb _is_multi_objective (studies_of study));
    [reflexivity|].
  destruct (negb (is_None target) && bool_decide (target_name = "Objective Value"));
    reflexivity.
Qed.

(** C5.  [_check_plot_args] raises if and only if no target accessor is
    given and one of the studies is multi-objective, and what it raises
    then is the invalid-argument error of the module (a [ValueError]
    carrying the request to specify the target), with no warning emitted;
    when a target accessor is given and the display name is the
    placeholder "Objective Value", it emits exactly one warning and
    returns normally. *)
Theorem check_plot_args_raises_iff {T : Type}
    (study : study_arg) (target : option T) (target_name : string) :
  ((exists evs e, _check_plot_args study target target_name = (evs, Raise e))
   <-> target = None /\
       exists s, s ∈ studies_of study /\ _is_multi_objective s = true)
  /\ (forall evs e,
        _check_plot_args study target target_name = (evs, Raise e) ->
        evs = [] /\ e = ValueError multi_objective_message)
  /\ (forall f,
        target = Some f -> target_name = "Objective Value" ->
        _check_plot_args study target target_name
        = ([warnings_warn default_name_message], Return tt)).
Proof.
  rewrite check_plot_args_cases.
  destruct (existsb _is_multi_objective (studies_of study)) eqn:Hmulti.
  - apply existsb_exists in Hmulti as (s & Hin%list_elem_of_In & Hs).
    destruct target as [f|]; simpl.
    + split; [split|split].
      * intros (evs & e & H). case_bool_decide; discriminate.
      * intros [H _]. discriminate.
      * intros evs e H. case_bool_decide; discriminate.
      * intros f' _ ->. reflexivity.
    + split; [split|split]; eauto.
      * intros evs e H. inversion H. auto.
      * intros f' H. discriminate.
  - assert (Hnone : ~ exists s, s ∈ studies_of study /\ _is_multi_objective s = true).
    { intros (s & Hin%list_elem_of_In & Hs).
      assert (existsb _is_multi_objective (studies_of study) = true)
        by (apply existsb_exists; eauto).
      congruence. }
    rewrite andb_false_r.
    destruct target as [f|]; simpl; (split; [split|split]).
    + intros (evs & e & H). case_bool_decide; discriminate.
    + intros [H _]. discriminate.
    + intros evs e H. case_bool_decide; discriminate.
    + intros f' _ ->. reflexivity.
    + intros (evs & e & H). discriminate.
    + intros [_ H]. contradiction.
    + intros evs e H. discriminate.
    + intros f' H. discriminate.
Qed.

(** *** Value extraction *)

(** C1.  [_get_param_values] never returns: the values are collected, then
    the call [_is_numerical(trials, p_name)] supplies two arguments to a
    function of three required parameters, and the [TypeError] of that call
    is the outcome, for every list of trials and every parameter name. *)
Theorem get_param_values_raises (trials : list FrozenTrial) (p_name : string) :
  _get_param_values trials p_name
  = Raise (TypeError
      "_is_numerical() missing 1 required positional argument: 'is_numerical'").
Proof. reflexivity. Qed.

(** *** Skipped trial numbers *)

Lemma skip_if_missing_elem (t : FrozenTrial) (used : list string)
    (acc : gset Z) (n : Z) :
  n ∈ skip_if_missing t used acc <-> n ∈ acc \/ (number t = n /\ lacks_param used t).
Proof.
  unfold lacks_param. induction used as [|p used IH]; simpl.
  - split; [auto|]. intros [H|[_ (p & Hp & _)]]; [done|]. by apply elem_of_nil in Hp.
  - destruct (dict_contains p (params t)) eqn:Hp; simpl.
    + rewrite IH. split; intros [H|[Hn (q & Hq & Hlack)]]; auto; right; split; auto.
      * exists q. split; [by apply elem_of_cons; right|done].
      * apply elem_of_cons in Hq as [->|Hq]; [congruence|eauto].
    + rewrite elem_of_union, elem_of_singleton. split.
      * intros [->|H]; [right|by left]. split; [done|]. exists p.
        split; [by apply elem_of_cons; left|done].
      * intros [H|[Hn _]]; auto.
Qed.

Lemma skipped_loop_elem (trials : list FrozenTrial) (used : list string)
    (acc : gset Z) (n : Z) :
  n ∈ skipped_loop trials used acc
  <-> n ∈ acc \/ exists t, t ∈ trials /\ number t = n /\ lacks_param used t.
Proof.
  revert acc. induction trials as [|t trials IH]; intros acc; simpl.
  - split; [auto|]. intros [H|(t & Ht & _)]; [done|]. by apply elem_of_nil in Ht.
  - rewrite IH, skip_if_missing_elem. split.
    + intros [[H|[Hn Hl]]|(t' & Ht' & Hn & Hl)]; auto; right.
      * exists t. split; [by apply elem_of_cons; left|done].
      * exists t'. split; [by apply elem_of_cons; right|done].
    + intros [H|(t' & Ht' & Hn & Hl)]; auto.
      apply elem_of_cons in Ht' as [->|Ht']; [by left; right|].
      right. by exists t'.
Qed.

(** C3.  [_get_skipped_trial_numbers] returns exactly the set of the numbers
    of the trials lacking at least one required name; and, the number being
    the identifier of a trial, no trial having all the required names has
    its number in the result. *)
Theorem skipped_trial_numbers_exact (trials : list FrozenTrial)
    (used_param_names : list string) :
  exactly_the_lacking trials used_param_names
  /\ (number_identifies trials -> complete_never_skipped trials used_param_names).
Proof.
  split.
  - intros n. unfold _get_skipped_trial_numbers. rewrite skipped_loop_elem.
    split; [|by right]. intros [H|H]; [|done]. by apply not_elem_of_empty in H.
  - intros Hid t Ht Hcomplete Hin.
    unfold _get_skipped_trial_numbers in Hin. apply skipped_loop_elem in Hin.
    destruct Hin as [H|(t' & Ht' & Hn & Hl)]; [by apply not_elem_of_empty in H|].
    assert (t' = t) as -> by (by apply Hid). contradiction.
Qed.

(** *** Non-finite targets *)

Lemma omitted_log_cons_kept target with_message t trials :
  finite_target target t = true ->
  omitted_log target with_message (t :: trials) = omitted_log target with_message trials.
Proof.
  intros H. unfold omitted_log, dropped. rewrite filter_cons_False; [done|].
  rewrite H. discriminate.
Qed.

Lemma omitted_log_cons_dropped target with_message t trials :
  finite_target target t = false ->
  omitted_log target with_message (t :: trials)
  = (if with_message then [logger_warning (omitted_message t)] else [])
    ++ omitted_log target with_message trials.
Proof.
  intros H. unfold omitted_log, dropped. rewrite filter_cons_True by done.
  by destruct with_message.
Qed.

(** The loop over a prefix of convertible trials: it logs the dropped ones,
    appends the kept ones and goes on with the rest. *)
Lemma filter_loop_app target with_message (pre rest acc : list FrozenTrial) :
  Forall (convertible target) pre ->
  filter_loop (resolved target) with_message (pre ++ rest) acc
  = let (evs, o) := filter_loop (resolved target) with_message rest
                      (acc ++ kept target pre) in
    (omitted_log target with_message pre ++ evs, o).
Proof.
  intros Hpre. revert acc.
  induction Hpre as [|t pre [f Hf] _ IH]; intros acc.
  - simpl. unfold kept. rewrite filter_nil, app_nil_r.
    destruct (filter_loop _ _ rest acc) as [evs o].
    by destruct with_message.
  - simpl. rewrite Hf.
    assert (finite_target target t = isfinite f) as Hfin
      by (unfold finite_target; by rewrite Hf).
    destruct (isfinite f) eqn:Hisf; simpl.
    + rewrite IH, omitted_log_cons_kept by done.
      unfold kept. rewrite filter_cons_True by done.
      by rewrite <- app_assoc.
    + rewrite omitted_log_cons_dropped by done. rewrite IH.
      unfold kept. rewrite filter_cons_False by (rewrite Hfin; discriminate).
      destruct (filter_loop _ _ rest _) as [evs o].
      by destruct with_message.
Qed.

Lemma filter_nonfinite_loop (trials : list FrozenTrial)
    (target : option (FrozenTrial -> pyval)) (with_message : bool) :
  _filter_nonfinite trials target with_message
  = filter_loop (resolved target) with_message trials [].
Proof. by destruct target. Qed.

(** At the first trial [float] rejects, the loop ends by raising what
    [float] raised, after a warning when that is a [ValueError] or a
    [TypeError]. *)
Lemma filter_nonfinite_raises_at (pre : list FrozenTrial) (t : FrozenTrial)
    (post : list FrozenTrial) (target : option (FrozenTrial -> pyval))
    (with_message : bool) (e : exn) :
  Forall (convertible target) pre ->
  py_float (resolved target t) = Raise e ->
  _filter_nonfinite (pre ++ t :: post) target with_message
  = (omitted_log target with_message pre
     ++ (if is_ValueError_or_TypeError e
         then [warnings_warn (cast_warning t (resolved target t))]
         else []),
     Raise e).
Proof.
  intros Hpre Hraise.
  rewrite filter_nonfinite_loop, filter_loop_app by done.
  simpl. rewrite Hraise. by destruct (is_ValueError_or_TypeError e).
Qed.

Lemma first_not_convertible (target : option (FrozenTrial -> pyval))
    (trials : list FrozenTrial) :
  Forall (convertible target) trials
  \/ exists pre t post e,
       trials = pre ++ t :: post /\ Forall (convertible target) pre
       /\ py_float (resolved target t) = Raise e.
Proof.
  induction trials as [|t trials [IH|(pre & t' & post & e & -> & Hpre & He)]].
  - left. constructor.
  - destruct (py_float (resolved target t)) as [f|e] eqn:Hf.
    + left. constructor; [by exists f|exact IH].
    + right. exists [], t, trials, e. by split; [|split].
  - destruct (py_float (resolved target t)) as [f|e0] eqn:Hf.
    + right. exists (t :: pre), t', post, e.
      split; [reflexivity|]. split; [|exact He]. constructor; [by exists f|exact Hpre].
    + right. exists [], t, (pre ++ t' :: post), e0. by split; [|split].
Qed.

Lemma filter_nonfinite_all_convertible (trials : list FrozenTrial)
    (target : option (FrozenTrial -> pyval)) (with_message : bool) :
  Forall (convertible target) trials ->
  _filter_nonfinite trials target with_message
  = (omitted_log target with_message trials, Return (kept target trials)).
Proof.
  intros Hconv. rewrite filter_nonfinite_loop.
  rewrite <- (app_nil_r trials) at 1. rewrite filter_loop_app by done.
  simpl. by rewrite app_nil_r.
Qed.

(** [_filter_nonfinite] returns exactly when [float] accepts every target. *)
Lemma filter_nonfinite_returns_iff (trials : list FrozenTrial)
    (target : option (FrozenTrial -> pyval)) (with_message : bool) :
  (exists evs out, _filter_nonfinite trials target with_message = (evs, Return out))
  <-> Forall (convertible target) trials.
Proof.
  split.
  - intros (evs & out & Hrun).
    destruct (first_not_convertible target trials)
      as [H|(pre & t & post & e & -> & Hpre & He)]; [exact H|].
    rewrite (filter_nonfinite_raises_at pre t post target with_message e) in Hrun
      by done.
    discriminate.
  - intros Hconv. rewrite filter_nonfinite_all_convertible by done. eauto.
Qed.




(** *** Classification tables *)

Lemma real_not_bool_test (v : pyval) :
  isinstance_int_float v && negb (isinstance_bool v) = true <-> real_not_bool v.
Proof.
  unfold real_not_bool. destruct v; simpl; split; try discriminate; eauto;
    intros [[? H]|[? H]]; discriminate.
Qed.

Lemma dict_get_cons {V : Type} (q p : string) (v : V) (d : list (string * V)) :
  dict_get q ((p, v) :: d) = if decide (q = p) then Some v else dict_get q d.
Proof. reflexivity. Qed.

Lemma dict_get_app {V : Type} (q : string) (d1 d2 : list (string * V)) :
  dict_get q (d1 ++ d2) = first_wins (dict_get q d1) (dict_get q d2).
Proof.
  induction d1 as [|[p v] d1 IH]; simpl; [done|]. by destruct (decide (q = p)).
Qed.

Lemma classify_item_lookup tables param dist tables' (q : string) :
  classify_item tables param dist = Return tables' ->
  tables'.1 !! q
  = first_wins (tables.1 !! q)
      (if decide (q = param) then Some (log_flag dist) else None)
  /\ tables'.2 !! q
     = first_wins (tables.2 !! q)
         (if decide (q = param) then numerical_kind dist else None).
Proof.
  destruct tables as [ls num]. unfold classify_item. simpl. intros H.
  assert (forall m : gmap string bool, forall b,
    m !! param = None ->
    <[param := b]> m !! q
    = first_wins (m !! q) (if decide (q = param) then Some b else None)) as Hins.
  { intros m b Hm. destruct (decide (q = param)) as [->|Hne].
    - by rewrite lookup_insert_eq, Hm.
    - rewrite lookup_insert_ne by done. by destruct (m !! q). }
  assert (forall (m : gmap string bool) (o : option bool),
    is_Some (m !! param) ->
    m !! q = first_wins (m !! q) (if decide (q = param) then o else None)) as Hkeep.
  { intros m o [b Hm]. destruct (decide (q = param)) as [->|Hne].
    - by rewrite Hm.
    - by destruct (m !! q). }
  destruct (num !! param) as [bn|] eqn:Hnum.
  - injection H as <-. simpl. split.
    + destruct (ls !! param) eqn:Hls; [by apply Hkeep|by apply Hins].
    + apply Hkeep. by rewrite Hnum.
  - destruct dist as [log|log|choices|cls]; try discriminate;
      injection H as <-; simpl; (split; [|by apply Hins]);
      (destruct (ls !! param) eqn:Hls; [by apply Hkeep|by apply Hins]).
Qed.

Lemma classify_item_raises tables param dist :
  (exists e, classify_item tables param dist = Raise e)
  <-> tables.2 !! param = None /\ exists cls, dist = OtherDistribution cls.
Proof.
  destruct tables as [ls num]. unfold classify_item. simpl.
  destruct (num !! param) as [bn|] eqn:Hnum.
  - split; [intros [e H]; discriminate|intros [H _]; discriminate].
  - destruct dist as [log|log|choices|cls]; (split;
      [intros [e H]; try discriminate; eauto
      |intros [_ [c H]]; try discriminate; eauto]).
Qed.

Lemma classify_items_app tables (items1 items2 : list (string * Distribution)) :
  classify_items tables (items1 ++ items2)
  = obind (classify_items tables items1) (fun tables' => classify_items tables' items2).
Proof.
  revert tables. induction items1 as [|[p d] items1 IH]; intros tables; simpl;
    [done|].
  destruct (classify_item tables p d) as [t1|e]; simpl; [apply IH|done].
Qed.

Lemma classify_trials_flat tables (trials : list FrozenTrial) :
  classify_trials tables trials = classify_items tables (all_items trials).
Proof.
  revert tables. induction trials as [|t trials IH]; intros tables; simpl; [done|].
  unfold all_items. simpl. rewrite classify_items_app.
  destruct (classify_items tables (distributions t)) as [t1|e]; simpl; [apply IH|done].
Qed.

Lemma classify_items_lookup tables items tables' (q : string) :
  classify_items tables items = Return tables' ->
  tables'.1 !! q = first_wins (tables.1 !! q) (log_flag <$> dict_get q items)
  /\ tables'.2 !! q = first_wins (tables.2 !! q) (dict_get q items ≫= numerical_kind).
Proof.
  revert tables. induction items as [|[p d] items IH]; intros tables; simpl.
  - intros [= <-]. by destruct (tables.1 !! q), (tables.2 !! q).
  - destruct (classify_item tables p d) as [t1|e] eqn:Hitem; simpl; [|discriminate].
    intros Hrest. apply IH in Hrest as [-> ->].
    assert (~ (tables.2 !! p = None /\ exists cls, d = OtherDistribution cls))
      as Hknown.
    { intros [e He]%classify_item_raises. congruence. }
    apply (classify_item_lookup _ _ _ _ q) in Hitem as [-> ->].
    destruct (decide (q = p)) as [->|Hne]; simpl;
      [|by destruct (tables.1 !! q), (tables.2 !! q)].
    split; [by destruct (tables.1 !! p)|].
    destruct (tables.2 !! p) eqn:Hnum; simpl; [done|].
    destruct d; simpl; try done. destruct Hknown. eauto.
Qed.

Lemma classify_items_raises tables items :
  (exists e, classify_items tables items = Raise e)
  <-> exists q cls, tables.2 !! q = None
                    /\ dict_get q items = Some (OtherDistribution cls).
Proof.
  revert tables. induction items as [|[p d] items IH]; intros tables; simpl.
  - split; [intros [e H]; discriminate|intros (q & cls & _ & H); discriminate].
  - destruct (classify_item tables p d) as [t1|e] eqn:Hitem; simpl.
    + assert (~ (tables.2 !! p = None /\ exists cls, d = OtherDistribution cls))
        as Hknown.
      { intros [e He]%classify_item_raises. congruence. }
      rewrite IH. split; intros (q & cls & Hq & Hget); exists q, cls;
        pose proof (classify_item_lookup _ _ _ _ q Hitem) as [_ Hnum].
      * rewrite Hnum in Hq.
        destruct (tables.2 !! q) eqn:Hold; simpl in Hq; [discriminate|].
        destruct (decide (q = p)) as [->|Hne]; [|done].
        destruct Hknown. split; [done|]. destruct d; try discriminate. eauto.
      * destruct (decide (q = p)) as [->|Hne].
        -- destruct Hknown. split; [done|]. injection Hget as ->. eauto.
        -- split; [|done]. rewrite Hnum, Hq. reflexivity.
    + split; [|eauto]. intros _.
      assert (exists e, classify_item tables p d = Raise e) as Hr by eauto.
      apply classify_item_raises in Hr as [Hp [cls ->]].
      exists p, cls. split; [done|]. by destruct (decide (p = p)).
Qed.

Lemma classify_items_assertion tables items (e : exn) :
  classify_items tables items = Raise e ->
  e = AssertionError "Unexpected distribution type in trial parameter.".
Proof.
  revert tables. induction items as [|[p d] items IH]; intros tables; simpl;
    [discriminate|].
  destruct (classify_item tables p d) as [t1|e'] eqn:Hitem; simpl; [apply IH|].
  intros [= <-]. destruct tables as [ls num]. unfold classify_item in Hitem.
  destruct (num !! p); [discriminate|]. destruct d; congruence.
Qed.

Lemma preprocess_flat (trials : list FrozenTrial) :
  _preprocess_trial_params trials = classify_items (∅, ∅) (all_items trials).
Proof. apply classify_trials_flat. Qed.

Lemma preprocess_lookup (trials : list FrozenTrial) ls num (p : string) :
  _preprocess_trial_params trials = Return (ls, num) ->
  ls !! p = log_flag <$> first_dist p trials
  /\ num !! p = first_dist p trials ≫= numerical_kind.
Proof.
  rewrite preprocess_flat. intros H.
  apply (classify_items_lookup _ _ _ p) in H as [H1 H2]. simpl in H1, H2.
  by rewrite lookup_empty in H1, H2.
Qed.

(** C4.  In the tables returned for a batch, the entry of every name is the
    one its first observed distribution gives, for [is_log_scale] and for
    [is_numerical]; the tables built from any leading part of the batch are
    contained in the final ones, so no entry once set is overwritten; and
    when "x" has a Float distribution with [log=True] in the first trial
    and one with [log=False] in the second, [is_log_scale["x"]] is
    [True]. *)
Theorem preprocess_first_seen_wins (trials : list FrozenTrial)
    (is_log_scale is_numerical : gmap string bool) :
  _preprocess_trial_params trials = Return (is_log_scale, is_numerical) ->
  (forall p, is_log_scale !! p = log_flag <$> first_dist p trials
             /\ is_numerical !! p = first_dist p trials ≫= numerical_kind)
  /\ (forall pre post, trials = pre ++ post ->
        exists ls0 num0,
          _preprocess_trial_params pre = Return (ls0, num0)
          /\ ls0 ⊆ is_log_scale /\ num0 ⊆ is_numerical)
  /\ (forall x t0 t1 rest, trials = t0 :: t1 :: rest ->
        dict_get x (distributions t0) = Some (FloatDistribution true) ->
        dict_get x (distributions t1) = Some (FloatDistribution false) ->
        is_log_scale !! x = Some true).
Proof.
  intros Hrun. split; [|split].
  - intros p. by apply preprocess_lookup.
  - intros pre post ->.
    pose proof Hrun as Hall. rewrite preprocess_flat in Hall.
    unfold all_items in Hall. rewrite flat_map_app, classify_items_app in Hall.
    fold (all_items pre) in Hall. rewrite <- preprocess_flat in Hall.
    destruct (_preprocess_trial_params pre) as [[ls0 num0]|e] eqn:Hpre;
      [|discriminate].
    exists ls0, num0. split; [done|]. simpl in Hall.
    split; apply map_subseteq_spec; intros q b Hq;
      pose proof (classify_items_lookup _ _ _ q Hall) as [H1 H2];
      simpl in H1, H2; rewrite Hq in *; done.
  - intros x t0 t1 rest -> Hx0 _.
    pose proof (preprocess_lookup _ _ _ x Hrun) as [Hls _].
    rewrite Hls. unfold first_dist, all_items. simpl.
    rewrite dict_get_app, Hx0. reflexivity.
Qed.

(** C6.  [_preprocess_trial_params] ends in the failed assertion exactly
    when the first distribution observed for some name is neither Float,
    Int nor Categorical, which cannot be when every distribution of the
    batch is of these kinds: it then returns.  In the [is_numerical] table
    it returns, the entry of a name is [True] when the first distribution
    observed for it is Float or Int, and for a Categorical one it is [True]
    if and only if every choice is an int or a float and not a boolean. *)
Theorem preprocess_is_numerical (trials : list FrozenTrial) :
  ((exists e, _preprocess_trial_params trials = Raise e)
   <-> exists p cls, first_dist p trials = Some (OtherDistribution cls))
  /\ (forall e, _preprocess_trial_params trials = Raise e ->
        e = AssertionError "Unexpected distribution type in trial parameter.")
  /\ (Forall (fun item => known_kind item.2) (all_items trials) ->
      exists tables, _preprocess_trial_params trials = Return tables)
  /\ (forall is_log_scale is_numerical p d,
        _preprocess_trial_params trials = Return (is_log_scale, is_numerical) ->
        first_dist p trials = Some d ->
        match d with
        | FloatDistribution _ | IntDistribution _ => is_numerical !! p = Some true
        | CategoricalDistribution choices =>
            exists b, is_numerical !! p = Some b
                      /\ (b = true <-> Forall real_not_bool choices)
        | OtherDistribution _ => False
        end).
Proof.
  assert ((exists e, _preprocess_trial_params trials = Raise e)
          <-> exists p cls, first_dist p trials = Some (OtherDistribution cls))
    as Hraise.
  { rewrite preprocess_flat, classify_items_raises. unfold first_dist.
    split; intros (q & cls & H); exists q, cls; [by destruct H|].
    split; [apply lookup_empty|done]. }
  split; [exact Hraise|]. split; [|split].
  - intros e. rewrite preprocess_flat. apply classify_items_assertion.
  - intros Hknown.
    destruct (_preprocess_trial_params trials) as [tables|e] eqn:Hrun; [eauto|].
    destruct Hraise as [Hr _]. destruct Hr as (p & cls & Hp); [eauto|].
    assert ((p, OtherDistribution cls) ∈ all_items trials) as Hin.
    { unfold first_dist in Hp. clear -Hp.
      induction (all_items trials) as [|[k v] items IH]; [discriminate|].
      simpl in Hp. destruct (decide (p = k)) as [->|Hne].
      - injection Hp as ->. by apply elem_of_cons; left.
      - apply elem_of_cons; right. by apply IH. }
    rewrite Forall_forall in Hknown. by apply Hknown in Hin.
  - intros ls num p d Hrun Hd.
    pose proof (preprocess_lookup _ _ _ p Hrun) as [_ Hnum].
    rewrite Hd in Hnum. simpl in Hnum.
    destruct d as [log|log|choices|cls]; simpl in Hnum; try done.
    + eexists. split; [exact Hnum|]. rewrite forallb_forall, Forall_forall.
      split; intros H v Hv.
      * apply real_not_bool_test, H. by apply list_elem_of_In.
      * apply real_not_bool_test, H. by apply list_elem_of_In.
    + destruct Hraise as [_ Hr]. destruct Hr as [e He]; [eauto|congruence].
Qed.

(** *** Line breaks *)












(** *** JSON encoding *)

(** Induction on values, through the containers. *)
Lemma pyval_induction (P : pyval -> Prop) :
  P VNone -> (forall b, P (VBool b)) -> (forall z, P (VInt z)) ->
  (forall f, P (VFloat f)) -> (forall s, P (VStr s)) ->
  (forall l, Forall P l -> P (VList l)) ->
  (forall l, Forall P l -> P (VTuple l)) ->
  (forall d, Forall (fun kv => P kv.2) d -> P (VDict d)) ->
  (forall cls oid, P (VObj cls oid)) ->
  (forall cls oid, P (VCyclic cls oid)) ->
  forall v, P v.
Proof.
  intros HNone HBool HInt HFloat HStr HList HTuple HDict HObj HCyclic.
  fix IH 1. intros [|b|z|f|s|l|l|d|cls oid|cls oid].
  - exact HNone.
  - apply HBool.
  - apply HInt.
  - apply HFloat.
  - apply HStr.
  - apply HList. induction l as [|x l IHl]; constructor; [apply IH|exact IHl].
  - apply HTuple. induction l as [|x l IHl]; constructor; [apply IH|exact IHl].
  - apply HDict. induction d as [|[k x] d IHd]; constructor; [apply IH|exact IHd].
  - apply HObj.
  - apply HCyclic.
Qed.

Lemma bind_Return {A B : Type} (o : outcome A) (k : A -> outcome B) (b : B) :
  o ≫= k = Return b <-> exists a, o = Return a /\ k a = Return b.
Proof.
  destruct o as [a|e]; simpl; split.
  - eauto.
  - intros (a' & [= <-] & H). exact H.
  - discriminate.
  - intros (a' & H & _). discriminate.
Qed.

Lemma bind_Raise {A B : Type} (o : outcome A) (k : A -> outcome B) (e : exn) :
  o ≫= k = Raise e <-> o = Raise e \/ exists a, o = Return a /\ k a = Raise e.
Proof.
  destruct o as [a|e']; simpl; split.
  - eauto.
  - intros [H|(a' & [= <-] & H)]; [discriminate|exact H].
  - intros [= <-]. by left.
  - intros [[= <-]|(a' & H & _)]; [reflexivity|discriminate].
Qed.

Lemma traverse_cons {A B : Type} (f : A -> outcome B) (x : A) (l : list A) :
  Json.traverse f (x :: l)
  = y ← f x; ys ← Json.traverse f l; Return (y :: ys).
Proof. reflexivity. Qed.

Lemma traverse_Return {A B : Type} (f : A -> outcome B) (l : list A) (ys : list B) :
  Json.traverse f l = Return ys <-> Forall2 (fun x y => f x = Return y) l ys.
Proof.
  revert ys. induction l as [|x l IH]; intros ys.
  - simpl. split; [intros [= <-]; constructor|intros H; by inversion H].
  - rewrite traverse_cons, bind_Return. split.
    + intros (y & Hy & (ys' & Hys & [= <-])%bind_Return).
      constructor; [exact Hy|by apply IH].
    + intros H. inversion H as [|? y ? ys' Hy Hys]; subst.
      exists y. split; [exact Hy|]. apply bind_Return. exists ys'.
      split; [by apply IH|reflexivity].
Qed.

Lemma traverse_Raise {A B : Type} (f : A -> outcome B) (l : list A) (e : exn) :
  Json.traverse f l = Raise e -> exists x, x ∈ l /\ f x = Raise e.
Proof.
  induction l as [|x l IH]; [discriminate|].
  rewrite traverse_cons, bind_Raise. intros [H|(y & Hy & H)].
  - exists x. split; [by apply elem_of_cons; left|exact H].
  - apply bind_Raise in H as [H|(ys & _ & H)]; [|discriminate].
    destruct (IH H) as (x' & Hin & Hx'). exists x'.
    split; [by apply elem_of_cons; right|exact Hx'].
Qed.

Lemma traverse_total {A B : Type} (f : A -> outcome B) (l : list A) :
  Forall (fun x => exists y, f x = Return y) l ->
  exists ys, Json.traverse f l = Return ys.
Proof.
  induction 1 as [|x l [y Hy] _ [ys Hys]]; [by exists []|].
  exists (y :: ys). rewrite traverse_cons, Hy. simpl. rewrite Hys. reflexivity.
Qed.

Lemma to_json_int (z : Z) :
  Json.to_json (VInt z) = (int_repr z ;; Return (Json.JInt z)).
Proof. reflexivity. Qed.

Lemma to_json_list (l : list pyval) :
  Json.to_json (VList l) = items ← Json.traverse Json.to_json l; Return (Json.JArr items).
Proof. reflexivity. Qed.

Lemma to_json_tuple (l : list pyval) :
  Json.to_json (VTuple l) = items ← Json.traverse Json.to_json l; Return (Json.JArr items).
Proof. reflexivity. Qed.

Lemma to_json_dict (d : list (string * pyval)) :
  Json.to_json (VDict d)
  = members ← Json.traverse (fun kv => j ← Json.to_json kv.2; Return (kv.1, j)) d;
    Return (Json.JObj members).
Proof. reflexivity. Qed.

(** An integer goes into a document exactly when it has at most 4300
    digits; beyond, the encoder ends with [ValueError]. *)
Lemma int_repr_cases (z : Z) :
  ((int_digits z <= MAX_STR_DIGITS)%nat /\ int_repr z = Return (pretty z))
  \/ (~ (int_digits z <= MAX_STR_DIGITS)%nat
      /\ exists msg, int_repr z = Raise (ValueError msg)).
Proof.
  unfold int_repr. destruct (Nat.leb_spec (int_digits z) MAX_STR_DIGITS).
  - left. by split.
  - right. split; [lia|]. by eexists.
Qed.


(** The encoder raises nothing but [TypeError] and [ValueError]. *)
Lemma to_json_raises (v : pyval) (e : exn) :
  Json.to_json v = Raise e ->
  (exists msg, e = TypeError msg) \/ (exists msg, e = ValueError msg).
Proof.
  revert e.
  induction v as [|b|z|f|s|l IH|l IH|d IH|cls oid|cls oid] using pyval_induction;
    intros e; try discriminate.
  - rewrite to_json_int.
    destruct (int_repr_cases z) as [[_ ->]|[_ [msg ->]]]; simpl; [discriminate|].
    intros [= <-]. eauto.
  - rewrite to_json_list, bind_Raise. intros [H|(items & _ & H)]; [|discriminate].
    apply traverse_Raise in H as (x & Hin & Hx).
    rewrite Forall_forall in IH. eapply IH; eauto.
  - rewrite to_json_tuple, bind_Raise. intros [H|(items & _ & H)]; [|discriminate].
    apply traverse_Raise in H as (x & Hin & Hx).
    rewrite Forall_forall in IH. eapply IH; eauto.
  - rewrite to_json_dict, bind_Raise. intros [H|(items & _ & H)]; [|discriminate].
    apply traverse_Raise in H as (kv & Hin & Hkv).
    apply bind_Raise in Hkv as [Hkv|(j & _ & Hkv)]; [|discriminate].
    rewrite Forall_forall in IH. eapply IH; eauto.
  - simpl. intros [= <-]. eauto.
  - simpl. intros [= <-]. eauto.
Qed.

Lemma dumps_to_json (indent : option nat) (v : pyval) :
  Json.dumps float_repr indent v
  = j ← Json.to_json v; Return (Json.render float_repr indent 0 j).
Proof. reflexivity. Qed.

(** [_make_json_compatible] by the outcome of the encoder. *)
Lemma make_json_compatible_cases (x : pyval) :
  _make_json_compatible x
  = match Json.to_json x with
    | Return _ => Return x
    | Raise (TypeError _) => s ← py_str x; Return (VStr s)
    | Raise e => Raise e
    end.
Proof.
  unfold _make_json_compatible. rewrite dumps_to_json.
  destruct (Json.to_json x) as [j|[]]; reflexivity.
Qed.

Lemma make_json_compatible_Return (x y : pyval) :
  _make_json_compatible x = Return y
  <-> (json_encodable x /\ y = x)
      \/ exists msg s, Json.to_json x = Raise (TypeError msg)
                       /\ py_str x = Return s /\ y = VStr s.
Proof.
  rewrite make_json_compatible_cases. unfold json_encodable.
  destruct (Json.to_json x) as [j|e] eqn:Hx.
  - split.
    + intros [= <-]. left. eauto.
    + intros [[_ ->]|(msg & s & H & _)]; [reflexivity|discriminate].
  - split.
    + intros H. right. destruct e as [msg|msg|msg|msg]; try discriminate.
      apply bind_Return in H as (s & Hs & [= <-]). eauto.
    + intros [[[j Hj] _]|(msg & s & [= ->] & Hs & ->)]; [discriminate|].
      by rewrite Hs.
Qed.

Lemma make_json_compatible_returns (x : pyval) :
  (exists y, _make_json_compatible x = Return y)
  <-> json_encodable x \/ falls_back x.
Proof.
  unfold falls_back. split.
  - intros [y [[Hx _]|(msg & s & Hx & Hs & _)]%make_json_compatible_Return]; eauto.
  - intros [Hx|(msg & s & Hx & Hs)].
    + exists x. apply make_json_compatible_Return. by left.
    + exists (VStr s). apply make_json_compatible_Return. right. eauto.
Qed.

Lemma make_json_compatible_encodable (x y : pyval) :
  _make_json_compatible x = Return y -> json_encodable y.
Proof.
  intros [[Hx ->]|(msg & s & _ & _ & ->)]%make_json_compatible_Return; [done|].
  by exists (Json.JStr s).
Qed.

(** *** JSON decoding *)

Lemma append_cons (c : ascii) (s t : string) : String c s +:+ t = String c (s +:+ t).
Proof. reflexivity. Qed.



Lemma append_assoc (s t u : string) : (s +:+ t) +:+ u = s +:+ (t +:+ u).
Proof. induction s as [|c s IH]; [reflexivity|]. by rewrite !append_cons, IH. Qed.

Lemma length_append (s t : string) :
  String.length (s +:+ t) = (String.length s + String.length t)%nat.
Proof. induction s as [|c s IH]; [reflexivity|]. rewrite append_cons. simpl. by rewrite IH. Qed.

Lemma pretty_N_char_digit (x : N) :
  (x < 10)%N ->
  Json.is_digit (pretty_N_char x) = true
  /\ Json.digit_value (pretty_N_char x) = Z.of_N x
  /\ (x <> 0%N -> Ascii.eqb (pretty_N_char x) "0" = false).
Proof.
  intros Hx.
  assert (x = 0 \/ x = 1 \/ x = 2 \/ x = 3 \/ x = 4 \/ x = 5 \/ x = 6 \/ x = 7
          \/ x = 8 \/ x = 9)%N as Hcases by lia.
  repeat (destruct Hcases as [->|Hcases]; [by vm_compute|]). subst x. by vm_compute.
Qed.


(** The digits [pretty_N_go] writes in front of its accumulator. *)
Lemma pretty_N_go_app (x : N) (s : string) :
  pretty_N_go x s = pretty_N_go x "" +:+ s.
Proof.
  revert s. induction (N.lt_wf_0 x) as [x _ IH]. intros s.
  assert (x = 0 \/ 0 < x)%N as [->|Hpos] by lia; [reflexivity|].
  assert (x `div` 10 < x)%N as Hlt by (by apply N.div_lt).
  rewrite (pretty_N_go_step x s), (pretty_N_go_step x "") by done.
  rewrite (IH _ Hlt (String _ s)), (IH _ Hlt (String _ "")).
  by rewrite append_assoc.
Qed.


Lemma pretty_N_go_head (x : N) :
  (0 < x)%N ->
  exists c s, pretty_N_go x "" = String c s
    /\ Json.is_digit c = true /\ Ascii.eqb c "0" = false.
Proof.
  induction (N.lt_wf_0 x) as [x _ IH]. intros Hpos.
  rewrite pretty_N_go_step, pretty_N_go_app by done.
  destruct (N.eq_0_gt_0_cases (x `div` 10)) as [Hz|Hq].
  - rewrite Hz. rewrite pretty_N_go_0. eexists _, _. split; [reflexivity|].
    assert (x < 10)%N as Hlt by (apply N.div_small_iff in Hz; lia).
    rewrite N.mod_small by done.
    destruct (pretty_N_char_digit x Hlt) as (Hd & _ & Hnz). split; [done|].
    apply Hnz. lia.
  - destruct (IH (x `div` 10)%N) as (c & s & -> & Hd & Hnz);
      [by apply N.div_lt|done|].
    rewrite append_cons. eauto.
Qed.







(** The positive numerals. *)
Lemma pretty_pos (p : positive) :
  pretty (Z.pos p) = pretty_N_go (N.pos p) "".
Proof. reflexivity. Qed.


(** A number that is at least [10 ^ k] has more than [k] digits. *)
Lemma pretty_N_go_length (k : nat) (x : N) :
  (10 ^ N.of_nat k <= x)%N -> (k < String.length (pretty_N_go x ""))%nat.
Proof.
  revert x. induction k as [|k IH]; intros x Hx.
  - destruct (pretty_N_go_head x) as (c & s & -> & _); [simpl in Hx; lia|].
    simpl. lia.
  - assert (0 < x)%N as Hpos.
    { eapply N.lt_le_trans; [|exact Hx]. apply N.neq_0_lt_0, N.pow_nonzero. lia. }
    rewrite pretty_N_go_step, pretty_N_go_app, length_append by done.
    assert (10 ^ N.of_nat k <= x `div` 10)%N as Hdiv.
    { apply N.div_le_lower_bound; [lia|].
      rewrite Nat2N.inj_succ, N.pow_succ_r' in Hx. exact Hx. }
    specialize (IH _ Hdiv). simpl. lia.
Qed.

Lemma int_digits_lower (k : nat) (z : Z) :
  10 ^ Z.of_nat k <= Z.abs z -> (k < int_digits z)%nat.
Proof.
  intros Hz. unfold int_digits.
  assert (0 < 10 ^ Z.of_nat k) as Hpow by (apply Z.pow_pos_nonneg; lia).
  destruct (Z.abs z) as [|p|p] eqn:Habs; [lia| |lia].
  rewrite pretty_pos. apply pretty_N_go_length.
  apply N2Z.inj_le. rewrite N2Z.inj_pow, nat_N_Z. exact Hz.
Qed.

(** [int.__repr__] of an integer that is at least [10 ^ 4300]. *)
Lemma int_repr_huge (z : Z) :
  10 ^ Z.of_nat MAX_STR_DIGITS <= Z.abs z ->
  int_repr z
  = Raise (ValueError
      ("Exceeds the limit (4300 digits) for integer string conversion; " +:+
       "use sys.set_int_max_str_digits() to increase the limit")).
Proof.
  intros Hz%int_digits_lower. unfold int_repr.
  destruct (Nat.leb_spec (int_digits z) MAX_STR_DIGITS); [lia|reflexivity].
Qed.


































(** *** Hover text *)

Lemma values_of_encodable (t : FrozenTrial) : json_encodable (values_of t).
Proof.
  unfold json_encodable, values_of. destruct (values t) as [l|]; [|by eexists].
  rewrite to_json_list.
  destruct (traverse_total Json.to_json (map VFloat l)) as [items ->]; [|by eexists].
  apply Forall_forall. intros x (f & -> & _)%list_elem_of_fmap. by eexists.
Qed.

Lemma to_json_dict_values (d : list (string * pyval)) (j : Json.json) :
  Json.to_json (VDict d) = Return j ->
  Forall (fun kv => json_encodable kv.2) d.
Proof.
  rewrite to_json_dict. intros (members & H & _)%bind_Return.
  apply traverse_Return in H.
  induction H as [|kv km d members (jx & Hjx & _)%bind_Return _ IH]; constructor;
    [by exists jx|exact IH].
Qed.

Lemma to_json_dict_encodable (d : list (string * pyval)) :
  Forall (fun kv => json_encodable kv.2) d -> json_encodable (VDict d).
Proof.
  intros H. unfold json_encodable. rewrite to_json_dict.
  destruct (traverse_total (fun kv => j ← Json.to_json kv.2; Return (kv.1, j)) d)
    as [members ->]; [|by eexists].
  eapply Forall_impl; [exact H|]. intros kv [j ->]. by eexists.
Qed.

(** The encoder stops on a dict with what stops it on a value of the dict. *)
Lemma to_json_dict_raises (d : list (string * pyval)) (e : exn) :
  Json.to_json (VDict d) = Raise e ->
  exists k v, (k, v) ∈ d /\ Json.to_json v = Raise e.
Proof.
  rewrite to_json_dict, bind_Raise. intros [H|(members & _ & H)]; [|discriminate].
  apply traverse_Raise in H as ([k v] & Hin & Hkv).
  apply bind_Raise in Hkv as [Hkv|(j & _ & Hkv)]; [|discriminate]. eauto.
Qed.

(** The user attributes, when they come out, come out encodable, as many
    as they were. *)
Lemma compatible_items_Return (d attrs : list (string * pyval)) :
  compatible_items d = Return attrs ->
  json_encodable (VDict attrs) /\ (attrs = [] <-> d = [])
  /\ Forall (fun kv => json_encodable kv.2 \/ falls_back kv.2) d.
Proof.
  unfold compatible_items. intros H%traverse_Return.
  assert (Forall (fun kv => json_encodable kv.2) attrs /\ (attrs = [] <-> d = [])
          /\ Forall (fun kv => json_encodable kv.2 \/ falls_back kv.2) d)
    as (Henc & Hnil & Hd).
  { induction H as [|[k x] kv d attrs Hxy _ (IH1 & _ & IH3)].
    - by split; [|split].
    - apply bind_Return in Hxy as (y & Hy & [= <-]). simpl in *.
      split; [|split]; [|by split|].
      + constructor; [|exact IH1]. by apply make_json_compatible_encodable in Hy.
      + constructor; [|exact IH3]. apply make_json_compatible_returns. eauto. }
  split; [by apply to_json_dict_encodable|by split].
Qed.

Lemma compatible_items_returns (d : list (string * pyval)) :
  Forall (fun kv => json_encodable kv.2 \/ falls_back kv.2) d ->
  exists attrs, compatible_items d = Return attrs.
Proof.
  intros Hd. apply traverse_total. eapply Forall_impl; [exact Hd|].
  intros [k x] [y Hy]%make_json_compatible_returns. simpl in *.
  exists (k, y). by rewrite Hy.
Qed.

Lemma to_json_hover_dict (t : FrozenTrial) (attrs : list (string * pyval)) :
  Json.to_json (hover_dict t attrs)
  = (int_repr (number t) ;;
     jvalues ← Json.to_json (values_of t);
     jparams ← Json.to_json (VDict (params t));
     match attrs with
     | [] =>
         Return (Json.JObj [("number", Json.JInt (number t));
                            ("values", jvalues); ("params", jparams)])
     | _ :: _ =>
         jattrs ← Json.to_json (VDict attrs);
         Return (Json.JObj [("number", Json.JInt (number t));
                            ("values", jvalues); ("params", jparams);
                            ("user_attrs", jattrs)])
     end).
Proof.
  unfold hover_dict. generalize (values_of t) as vv.
  generalize (VDict (params t)) as pp. intros pp vv.
  destruct attrs as [|a attrs].
  - rewrite to_json_dict. simpl.
    destruct (int_repr (number t)); simpl; [|reflexivity].
    destruct (Json.to_json vv); simpl; [|reflexivity].
    destruct (Json.to_json pp); reflexivity.
  - generalize (VDict (a :: attrs)) as aa. intros aa.
    rewrite to_json_dict. simpl.
    destruct (int_repr (number t)); simpl; [|reflexivity].
    destruct (Json.to_json vv); simpl; [|reflexivity].
    destruct (Json.to_json pp); simpl; [|reflexivity].
    destruct (Json.to_json aa); reflexivity.
Qed.

Lemma make_hovertext_text (t : FrozenTrial) :
  _make_hovertext t
  = text ← hover_json_text t; Return (str_replace NEWLINE LINE_BREAK text).
Proof.
  unfold _make_hovertext, hover_json_text.
  destruct (compatible_items (user_attrs t)) as [attrs|e]; simpl; [|reflexivity].
  destruct (Json.dumps float_repr (Some 2%nat) (hover_dict t attrs)); reflexivity.
Qed.

(** When [_make_hovertext] returns: the number has been written, the
    parameter values are encodable and the user attributes have been made
    compatible. *)
Lemma make_hovertext_returns (t : FrozenTrial) :
  (exists txt, _make_hovertext t = Return txt)
  <-> (int_digits (number t) <= MAX_STR_DIGITS)%nat
      /\ json_encodable (VDict (params t))
      /\ Forall (fun kv => json_encodable kv.2 \/ falls_back kv.2) (user_attrs t).
Proof.
  rewrite make_hovertext_text. unfold hover_json_text. split.
  - intros [txt (text & Htext & _)%bind_Return].
    apply bind_Return in Htext as (attrs & Hattrs & Hdumps).
    rewrite dumps_to_json in Hdumps.
    apply bind_Return in Hdumps as (doc & Hdoc & _).
    rewrite to_json_hover_dict in Hdoc.
    apply bind_Return in Hdoc as (? & Hnumber & Hdoc).
    apply bind_Return in Hdoc as (jvalues & _ & Hdoc).
    apply bind_Return in Hdoc as (jparams & Hparams & _).
    split; [|split].
    + destruct (int_repr_cases (number t)) as [[Hle _]|[_ [msg Hmsg]]]; [done|].
      congruence.
    + by exists jparams.
    + by apply compatible_items_Return in Hattrs as (_ & _ & Hd).
  - intros (Hnumber & [jparams Hparams] & Hattrs).
    destruct (compatible_items_returns _ Hattrs) as [attrs Hret].
    destruct (compatible_items_Return _ _ Hret) as ([jattrs Hjattrs] & _ & _).
    destruct (values_of_encodable t) as [jvalues Hvalues].
    destruct (int_repr_cases (number t)) as [[_ Hrepr]|[Hgt _]]; [|done].
    rewrite Hret. simpl. rewrite dumps_to_json, to_json_hover_dict.
    rewrite Hrepr, Hvalues, Hparams.
    destruct attrs; [by eexists|]. rewrite Hjattrs. by eexists.
Qed.

(** C10.  When some parameter value of a trial is not JSON-encodable,
    [_make_hovertext] raises.  What it raises is a [TypeError], the user
    attributes having been made encodable by [_make_json_compatible] while
    the parameter values are serialized as they are, whenever the encoder is
    stopped by nothing else than unknown objects: the number is written, no
    user attribute fails but by a [TypeError] that [str] makes good, and no
    parameter value ends the encoder with [ValueError]. *)
Theorem hovertext_raises_on_params (t : FrozenTrial) :
  (exists k v, (k, v) ∈ params t /\ ~ json_encodable v) ->
  (exists e, _make_hovertext t = Raise e)
  /\ ((int_digits (number t) <= MAX_STR_DIGITS)%nat ->
      Forall (fun kv => json_encodable kv.2 \/ falls_back kv.2) (user_attrs t) ->
      (forall k v msg, (k, v) ∈ params t -> Json.to_json v <> Raise (ValueError msg)) ->
      (exists attrs, compatible_items (user_attrs t) = Return attrs
                     /\ json_encodable (VDict attrs))
      /\ exists msg, _make_hovertext t = Raise (TypeError msg)).
Proof.
  intros (k & v & Hin & Hv).
  assert (exists e, Json.to_json (VDict (params t)) = Raise e) as [e Hparams].
  { destruct (Json.to_json (VDict (params t))) as [j|e] eqn:Hparams; [|eauto].
    apply to_json_dict_values in Hparams. rewrite Forall_forall in Hparams.
    destruct Hv. by apply (Hparams (k, v)). }
  split.
  - destruct (_make_hovertext t) as [txt|e'] eqn:Htxt; [|eauto].
    assert (exists txt, _make_hovertext t = Return txt) as Hret by eauto.
    apply make_hovertext_returns in Hret as (_ & [j Hj] & _). congruence.
  - intros Hnumber Hattrs Hno.
    destruct (compatible_items_returns _ Hattrs) as [attrs Hret].
    destruct (compatible_items_Return _ _ Hret) as (Henc & _ & _).
    split; [by exists attrs|].
    destruct (to_json_dict_raises _ _ Hparams) as (k' & v' & Hin' & Hv').
    destruct (to_json_raises _ _ Hv') as [[msg ->]|[msg ->]];
      [|by destruct (Hno k' v' msg Hin')].
    exists msg. unfold _make_hovertext. rewrite Hret. simpl.
    rewrite dumps_to_json, to_json_hover_dict, Hparams.
    destruct (int_repr_cases (number t)) as [[_ ->]|[Hgt _]]; [|done].
    destruct (values_of_encodable t) as [jv ->]. reflexivity.
Qed.


(** ** Further properties *)

(** *** Classification tables and their lookups *)

Lemma dict_get_is_Some {V : Type} (k : string) (d : list (string * V)) :
  is_Some (dict_get k d) <-> exists v, (k, v) ∈ d.
Proof.
  induction d as [|[k' v'] d IH]; simpl.
  - split; [by intros [? ?]|]. intros [v Hv]. by apply elem_of_nil in Hv.
  - destruct (decide (k = k')) as [->|Hne].
    + split; [|eauto]. intros _. exists v'. by apply elem_of_cons; left.
    + rewrite IH. split; intros [v Hv]; exists v.
      * by apply elem_of_cons; right.
      * apply elem_of_cons in Hv as [[= ? ?]|Hv]; [done|exact Hv].
Qed.

Lemma elem_of_all_items (trials : list FrozenTrial) (p : string) (d : Distribution) :
  (p, d) ∈ all_items trials <-> exists t, t ∈ trials /\ (p, d) ∈ distributions t.
Proof.
  unfold all_items. rewrite list_elem_of_In, in_flat_map.
  split; intros (t & Ht & Hd); exists t.
  - by rewrite !list_elem_of_In.
  - by rewrite <- !list_elem_of_In.
Qed.

(** In the tables of a batch that is classified, a name has an entry when
    some trial declares a distribution for it, and the entry of
    [is_numerical] is never missing where [is_log_scale] has one. *)
Lemma preprocess_entries (trials : list FrozenTrial) ls num (p : string) :
  _preprocess_trial_params trials = Return (ls, num) ->
  match first_dist p trials with
  | Some d => ls !! p = Some (log_flag d)
              /\ exists b, numerical_kind d = Some b /\ num !! p = Some b
  | None => ls !! p = None /\ num !! p = None
  end.
Proof.
  intros Hrun. destruct (preprocess_lookup _ _ _ p Hrun) as [Hls Hnum].
  destruct (first_dist p trials) as [d|] eqn:Hd; simpl in *; [|done].
  split; [exact Hls|].
  destruct (numerical_kind d) as [b|] eqn:Hb; [by exists b|].
  destruct d; try discriminate.
  assert (exists e, _preprocess_trial_params trials = Raise e) as [e He].
  { rewrite preprocess_flat. apply classify_items_raises.
    eexists _, _. split; [apply lookup_empty|exact Hd]. }
  congruence.
Qed.

(** X1.  The two tables returned for a batch have the same keys: the
    parameter names for which some trial of the batch declares a
    distribution. *)
Theorem preprocess_same_keys (trials : list FrozenTrial)
    (is_log_scale is_numerical : gmap string bool) :
  _preprocess_trial_params trials = Return (is_log_scale, is_numerical) ->
  dom is_log_scale = dom is_numerical
  /\ (forall p, p ∈ dom is_log_scale
                <-> exists t d, t ∈ trials /\ (p, d) ∈ distributions t).
Proof.
  intros Hrun.
  assert (forall p, (p ∈ dom is_log_scale <-> is_Some (first_dist p trials))
                    /\ (p ∈ dom is_numerical <-> is_Some (first_dist p trials)))
    as Hdom.
  { intros p. rewrite !elem_of_dom.
    pose proof (preprocess_entries _ _ _ p Hrun) as H.
    destruct (first_dist p trials) as [d|].
    - destruct H as [-> (b & _ & ->)]. by split.
    - destruct H as [-> ->]. by split. }
  split.
  - apply set_eq. intros p. destruct (Hdom p) as [-> ->]. reflexivity.
  - intros p. destruct (Hdom p) as [-> _]. unfold first_dist.
    rewrite dict_get_is_Some. split.
    + intros [d (t & Ht & Hd)%elem_of_all_items]. by exists t, d.
    + intros (t & d & Ht & Hd). exists d. apply elem_of_all_items. by exists t.
Qed.

(** X2.  Read through the lookups, the tables of a batch give [False] twice
    for a name no trial declares, and a parameter found log-scaled is
    always found numerical. *)
Theorem lookups_after_preprocess (trials : list FrozenTrial)
    (is_log_scale is_numerical : gmap string bool) (p : string) :
  _preprocess_trial_params trials = Return (is_log_scale, is_numerical) ->
  (first_dist p trials = None ->
   _is_log_scale trials p is_log_scale = false
   /\ _is_numerical trials p is_numerical = false)
  /\ (_is_log_scale trials p is_log_scale = true ->
      _is_numerical trials p is_numerical = true).
Proof.
  intros Hrun. pose proof (preprocess_entries _ _ _ p Hrun) as H.
  unfold _is_log_scale, _is_numerical. split.
  - intros Hnone. rewrite Hnone in H. destruct H as [-> ->]. by split.
  - destruct (first_dist p trials) as [d|].
    + destruct H as [-> (b & Hb & ->)]. simpl.
      destruct d as [log|log|choices|cls]; simpl in *; try discriminate;
        intros _; congruence.
    + destruct H as [-> _]. discriminate.
Qed.

(** Items whose names both tables already hold change nothing, whatever
    their distributions are. *)
Lemma classify_items_seen tables (items : list (string * Distribution)) :
  Forall (fun item => is_Some (tables.1 !! item.1) /\ is_Some (tables.2 !! item.1))
    items ->
  classify_items tables items = Return tables.
Proof.
  induction 1 as [|[p d] items [[b1 H1] [b2 H2]] _ IH]; [reflexivity|].
  simpl in *. destruct tables as [ls num]. unfold classify_item. simpl in *.
  rewrite H1, H2. simpl. exact IH.
Qed.

(** X3.  Trials that declare no new parameter name leave the classification
    as it is: appended to a classified batch, they give the same two
    tables, even if they declare a distribution of another kind (the
    assertion is not reached for a name already classified).  In
    particular a batch repeated gives the tables of the batch. *)
Theorem preprocess_absorbs_seen_names (trials more : list FrozenTrial)
    (is_log_scale is_numerical : gmap string bool) :
  _preprocess_trial_params trials = Return (is_log_scale, is_numerical) ->
  (forall t p d, t ∈ more -> (p, d) ∈ distributions t ->
                 exists t' d', t' ∈ trials /\ (p, d') ∈ distributions t') ->
  _preprocess_trial_params (trials ++ more) = Return (is_log_scale, is_numerical).
Proof.
  intros Hrun Hseen.
  rewrite preprocess_flat. unfold all_items. rewrite flat_map_app.
  fold (all_items trials) (all_items more).
  rewrite classify_items_app, <- preprocess_flat, Hrun. simpl.
  apply classify_items_seen. apply Forall_forall. intros [p d] Hin. simpl.
  apply elem_of_all_items in Hin as (t & Ht & Hd).
  destruct (Hseen t p d Ht Hd) as (t' & d' & Ht' & Hd').
  assert (is_Some (first_dist p trials)) as [d0 Hd0].
  { apply dict_get_is_Some. exists d'. apply elem_of_all_items. by exists t'. }
  pose proof (preprocess_entries _ _ _ p Hrun) as H. rewrite Hd0 in H.
  destruct H as [-> (b & _ & ->)]. by split.
Qed.

(** X4.  A batch on which the classification fails keeps failing however
    it is continued: the trials after the one that reaches the assertion
    are not looked at. *)
Theorem preprocess_failure_is_final (trials more : list FrozenTrial) (e : exn) :
  _preprocess_trial_params trials = Raise e ->
  _preprocess_trial_params (trials ++ more) = Raise e.
Proof.
  intros Hrun. rewrite preprocess_flat. unfold all_items. rewrite flat_map_app.
  fold (all_items trials) (all_items more).
  rewrite classify_items_app, <- preprocess_flat, Hrun. reflexivity.
Qed.

(** X17.  When the distributions declared for a same name all agree on
    their log flag and on their numerical kind, the order of the trials
    does not matter: two batches made of the same trials, in any order and
    with any repetitions, are classified alike. *)
Theorem preprocess_order_irrelevant (trials trials' : list FrozenTrial)
    (is_log_scale is_numerical : gmap string bool) :
  (forall t, t ∈ trials <-> t ∈ trials') ->
  (forall p d d', (p, d) ∈ all_items trials -> (p, d') ∈ all_items trials ->
                  log_flag d = log_flag d' /\ numerical_kind d = numerical_kind d') ->
  _preprocess_trial_params trials = Return (is_log_scale, is_numerical) ->
  _preprocess_trial_params trials' = Return (is_log_scale, is_numerical).
Proof.
  intros Hsame Hagree Hrun.
  assert (forall item, item ∈ all_items trials <-> item ∈ all_items trials') as Hitems.
  { intros [p d]. rewrite !elem_of_all_items.
    split; intros (t & Ht & Hd); exists t; (split; [by apply Hsame|done]). }
  assert (forall p d, first_dist p trials = Some d -> (p, d) ∈ all_items trials)
    as Hfirst.
  { intros p d. unfold first_dist. generalize (all_items trials) as items.
    induction items as [|[k v] items IH]; [discriminate|]. simpl.
    destruct (decide (p = k)) as [->|Hne].
    - intros [= ->]. by apply elem_of_cons; left.
    - intros H. apply elem_of_cons. right. by apply IH. }
  assert (forall p d, first_dist p trials' = Some d -> (p, d) ∈ all_items trials')
    as Hfirst'.
  { intros p d. unfold first_dist. generalize (all_items trials') as items.
    induction items as [|[k v] items IH]; [discriminate|]. simpl.
    destruct (decide (p = k)) as [->|Hne].
    - intros [= ->]. by apply elem_of_cons; left.
    - intros H. apply elem_of_cons. right. by apply IH. }
  assert (forall p d', first_dist p trials' = Some d' ->
            exists d, first_dist p trials = Some d
                      /\ log_flag d = log_flag d'
                      /\ numerical_kind d = numerical_kind d') as Hback.
  { intros p d' Hd'. apply Hfirst', Hitems in Hd'.
    assert (is_Some (first_dist p trials)) as [d Hd]
      by (apply dict_get_is_Some; eauto).
    exists d. split; [done|]. apply (Hagree p); [by apply Hfirst|done]. }
  destruct (_preprocess_trial_params trials') as [[ls' num']|e] eqn:Hrun'.
  - f_equal. f_equal; apply map_eq; intros p;
      pose proof (preprocess_entries _ _ _ p Hrun) as H;
      pose proof (preprocess_entries _ _ _ p Hrun') as H';
      destruct (first_dist p trials') as [d'|] eqn:Hd'.
    + destruct (Hback p d' Hd') as (d & Hd & Hlog & _). rewrite Hd in H.
      destruct H as [-> _], H' as [-> _]. by rewrite Hlog.
    + destruct (first_dist p trials) as [d|] eqn:Hd.
      * apply Hfirst, Hitems in Hd.
        assert (is_Some (first_dist p trials')) as [d' Hd'']
          by (apply dict_get_is_Some; eauto).
        congruence.
      * destruct H as [-> _], H' as [-> _]. reflexivity.
    + destruct (Hback p d' Hd') as (d & Hd & _ & Hnum). rewrite Hd in H.
      destruct H as [_ (b & Hb & ->)], H' as [_ (b' & Hb' & ->)]. congruence.
    + destruct (first_dist p trials) as [d|] eqn:Hd.
      * apply Hfirst, Hitems in Hd.
        assert (is_Some (first_dist p trials')) as [d' Hd'']
          by (apply dict_get_is_Some; eauto).
        congruence.
      * destruct H as [_ ->], H' as [_ ->]. reflexivity.
  - assert (exists e, _preprocess_trial_params trials' = Raise e) as Hr by eauto.
    rewrite preprocess_flat, classify_items_raises in Hr.
    destruct Hr as (p & cls & _ & Hp).
    destruct (Hback p _ Hp) as (d & Hd & _ & Hnum).
    pose proof (preprocess_entries _ _ _ p Hrun) as H. rewrite Hd in H.
    destruct H as [_ (b & Hb & _)]. simpl in Hnum. congruence.
Qed.

(** *** Non-finite targets, continued *)

Lemma kept_convertible (target : option (FrozenTrial -> pyval))
    (trials : list FrozenTrial) :
  Forall (convertible target) (kept target trials).
Proof.
  apply Forall_forall. intros t [Hfin _]%list_elem_of_filter.
  unfold finite_target in Hfin. unfold convertible.
  destruct (py_float (resolved target t)) as [f|e]; [eauto|discriminate].
Qed.

Lemma kept_kept (target : option (FrozenTrial -> pyval)) (trials : list FrozenTrial) :
  kept target (kept target trials) = kept target trials
  /\ dropped target (kept target trials) = [].
Proof.
  unfold kept, dropped. induction trials as [|t trials [IH1 IH2]]; [done|].
  destruct (finite_target target t) eqn:Hfin.
  - rewrite (filter_cons_True _ t trials) by done.
    rewrite filter_cons_True by done. rewrite filter_cons_False by (rewrite Hfin; done).
    by rewrite IH1, IH2.
  - rewrite (filter_cons_False _ t trials) by (rewrite Hfin; done). by split.
Qed.

(** X5.  Filtering is idempotent: the list [_filter_nonfinite] returned,
    filtered again with the same target, comes back unchanged, and nothing
    is logged the second time. *)
Theorem filter_nonfinite_idempotent (trials : list FrozenTrial)
    (target : option (FrozenTrial -> pyval)) (with_message with_message' : bool)
    (evs : list event) (out : list FrozenTrial) :
  _filter_nonfinite trials target with_message = (evs, Return out) ->
  _filter_nonfinite out target with_message' = ([], Return out).
Proof.
  intros Hrun.
  assert (Forall (convertible target) trials) as Hconv
    by (apply (filter_nonfinite_returns_iff trials target with_message); eauto).
  rewrite filter_nonfinite_all_convertible in Hrun by done.
  injection Hrun as _ <-.
  rewrite filter_nonfinite_all_convertible by apply kept_convertible.
  destruct (kept_kept target trials) as [-> Hdrop].
  unfold omitted_log. rewrite Hdrop. by destruct with_message'.
Qed.

(** X6.  Filtering a concatenation is filtering its parts in turn: when
    both parts are filtered without raising, the events and the kept trials
    of the whole are those of the first part followed by those of the
    second; when the first part raises, the whole ends as the first part
    does. *)
Theorem filter_nonfinite_app (trials1 trials2 : list FrozenTrial)
    (target : option (FrozenTrial -> pyval)) (with_message : bool) :
  (forall evs1 out1 evs2 out2,
     _filter_nonfinite trials1 target with_message = (evs1, Return out1) ->
     _filter_nonfinite trials2 target with_message = (evs2, Return out2) ->
     _filter_nonfinite (trials1 ++ trials2) target with_message
     = (evs1 ++ evs2, Return (out1 ++ out2)))
  /\ (forall evs e,
        _filter_nonfinite trials1 target with_message = (evs, Raise e) ->
        _filter_nonfinite (trials1 ++ trials2) target with_message = (evs, Raise e)).
Proof.
  split.
  - intros evs1 out1 evs2 out2 H1 H2.
    assert (Forall (convertible target) trials1) as Hc1
      by (apply (filter_nonfinite_returns_iff trials1 target with_message); eauto).
    assert (Forall (convertible target) trials2) as Hc2
      by (apply (filter_nonfinite_returns_iff trials2 target with_message); eauto).
    rewrite filter_nonfinite_all_convertible in H1, H2 by done.
    injection H1 as <- <-. injection H2 as <- <-.
    rewrite filter_nonfinite_all_convertible by (by apply Forall_app).
    unfold omitted_log, kept, dropped. rewrite !filter_app.
    destruct with_message; [by rewrite map_app|done].
  - intros evs e H1.
    destruct (first_not_convertible target trials1)
      as [Hc|(pre & t & post & e' & -> & Hpre & He')].
    + rewrite filter_nonfinite_all_convertible in H1 by done. discriminate.
    + rewrite <- app_assoc. simpl.
      rewrite (filter_nonfinite_raises_at pre t post target with_message e') in H1
        by done.
      by rewrite (filter_nonfinite_raises_at pre t (post ++ trials2)
                    target with_message e').
Qed.

(** X7.  When the flag is set, every trial is accounted for: the number of
    log messages and the number of trials returned add up to the number of
    trials given; and the flag decides the messages only, the same list
    being returned, with no event at all, when it is not set. *)
Theorem filter_nonfinite_accounts (trials : list FrozenTrial)
    (target : option (FrozenTrial -> pyval)) (evs : list event)
    (out : list FrozenTrial) :
  _filter_nonfinite trials target true = (evs, Return out) ->
  (length evs + length out = length trials)%nat
  /\ _filter_nonfinite trials target false = ([], Return out).
Proof.
  intros Hrun.
  assert (Forall (convertible target) trials) as Hconv
    by (apply (filter_nonfinite_returns_iff trials target true); eauto).
  rewrite filter_nonfinite_all_convertible in Hrun by done.
  injection Hrun as <- <-. split.
  - unfold omitted_log, dropped, kept. rewrite length_map. clear Hconv.
    induction trials as [|t trials IH]; [reflexivity|].
    destruct (finite_target target t) eqn:Hfin.
    + rewrite filter_cons_False by (rewrite Hfin; done).
      rewrite filter_cons_True by done. simpl. lia.
    + rewrite filter_cons_True by done.
      rewrite filter_cons_False by (rewrite Hfin; done). simpl. lia.
  - by rewrite filter_nonfinite_all_convertible.
Qed.




(** *** Skipped trial numbers, continued *)

Lemma skipped_elem (trials : list FrozenTrial) (used : list string) (n : Z) :
  n ∈ _get_skipped_trial_numbers trials used
  <-> exists t, t ∈ trials /\ number t = n /\ lacks_param used t.
Proof.
  unfold _get_skipped_trial_numbers. rewrite skipped_loop_elem.
  split; [|by right]. intros [H|H]; [|done]. by apply not_elem_of_empty in H.
Qed.

Lemma size_list_to_set_le (l : list Z) :
  (size (list_to_set l : gset Z) <= length l)%nat.
Proof.
  induction l as [|x l IH]; simpl.
  - change (size (∅ : gset Z) <= 0)%nat. by rewrite size_empty.
  - change (size ({[x]} ∪ list_to_set l : gset Z) <= S (length l))%nat.
    rewrite size_union_alt, size_singleton.
    assert (size (list_to_set l ∖ {[x]} : gset Z) <= size (list_to_set l : gset Z))%nat
      as Hle by (apply subseteq_size, subseteq_difference_l; reflexivity).
    lia.
Qed.

(** X10.  The result holds trial numbers of the input only, so it has at
    most as many elements as there are trials; and it is empty when no
    parameter name is required. *)
Theorem skipped_trial_numbers_bounds (trials : list FrozenTrial)
    (used_param_names : list string) :
  _get_skipped_trial_numbers trials used_param_names ⊆ list_to_set (number <$> trials)
  /\ (size (_get_skipped_trial_numbers trials used_param_names) <= length trials)%nat
  /\ _get_skipped_trial_numbers trials [] = ∅.
Proof.
  assert (_get_skipped_trial_numbers trials used_param_names
          ⊆ list_to_set (number <$> trials)) as Hsub.
  { intros n (t & Ht & <- & _)%skipped_elem.
    apply elem_of_list_to_set, list_elem_of_fmap. by exists t. }
  split; [exact Hsub|]. split.
  - etrans; [apply subseteq_size, Hsub|].
    etrans; [apply size_list_to_set_le|]. by rewrite length_fmap.
  - apply set_eq. intros n. rewrite skipped_elem. split.
    + intros (t & _ & _ & p & Hp & _). by apply elem_of_nil in Hp.
    + intros H. by apply not_elem_of_empty in H.
Qed.

(** X11.  The trials are judged one by one: the result for a concatenation
    is the union of the results for its parts; a trial that has every
    required name adds nothing, and one that lacks a name adds its
    number. *)
Theorem skipped_trial_numbers_app (trials1 trials2 : list FrozenTrial)
    (used_param_names : list string) :
  _get_skipped_trial_numbers (trials1 ++ trials2) used_param_names
  = _get_skipped_trial_numbers trials1 used_param_names
    ∪ _get_skipped_trial_numbers trials2 used_param_names
  /\ (forall t, ~ lacks_param used_param_names t ->
        _get_skipped_trial_numbers (t :: trials2) used_param_names
        = _get_skipped_trial_numbers trials2 used_param_names)
  /\ (forall t, lacks_param used_param_names t ->
        _get_skipped_trial_numbers (t :: trials2) used_param_names
        = {[number t]} ∪ _get_skipped_trial_numbers trials2 used_param_names).
Proof.
  split; [|split].
  - apply set_eq. intros n. rewrite elem_of_union, !skipped_elem. split.
    + intros (t & [Ht|Ht]%elem_of_app & Hn & Hl); [left|right]; by exists t.
    + intros [(t & Ht & Hn & Hl)|(t & Ht & Hn & Hl)]; exists t;
        (split; [apply elem_of_app; auto|done]).
  - intros t Hcomplete. apply set_eq. intros n. rewrite !skipped_elem. split.
    + intros (t' & [->|Ht']%elem_of_cons & Hn & Hl); [done|]. by exists t'.
    + intros (t' & Ht' & Hn & Hl). exists t'. split; [by apply elem_of_cons; right|done].
  - intros t Hlacks. apply set_eq. intros n.
    rewrite elem_of_union, elem_of_singleton, !skipped_elem. split.
    + intros (t' & [->|Ht']%elem_of_cons & Hn & Hl); [by left|]. right. by exists t'.
    + intros [->|(t' & Ht' & Hn & Hl)].
      * exists t. split; [by apply elem_of_cons; left|done].
      * exists t'. split; [by apply elem_of_cons; right|done].
Qed.

(** X12.  Requiring more names skips more trials, and only the set of the
    required names matters, not their order or their repetitions. *)
Theorem skipped_trial_numbers_names (trials : list FrozenTrial)
    (used used' : list string) :
  ((forall p, p ∈ used -> p ∈ used') ->
   _get_skipped_trial_numbers trials used ⊆ _get_skipped_trial_numbers trials used')
  /\ ((forall p, p ∈ used <-> p ∈ used') ->
      _get_skipped_trial_numbers trials used = _get_skipped_trial_numbers trials used').
Proof.
  assert (forall u u' : list string, (forall p, p ∈ u -> p ∈ u') ->
            _get_skipped_trial_numbers trials u ⊆ _get_skipped_trial_numbers trials u')
    as Hmono.
  { intros u u' Hincl n (t & Ht & Hn & p & Hp & Hlack)%skipped_elem.
    apply skipped_elem. exists t. split; [done|]. split; [done|].
    exists p. split; [by apply Hincl|done]. }
  split; [apply Hmono|].
  intros Hsame. apply set_eq. intros n. split; apply Hmono; intros p; apply Hsame.
Qed.

(** *** Argument validation, continued *)

(** X13.  A sequence of studies is refused exactly when one of its studies
    would be refused alone; an empty sequence is never refused. *)
Theorem check_plot_args_each_study {T : Type} (studies : list Study)
    (target : option T) (target_name : string) :
  (exists evs e,
     _check_plot_args (ManyStudies studies) target target_name = (evs, Raise e))
  <-> exists s, s ∈ studies
        /\ exists evs e,
             _check_plot_args (OneStudy s) target target_name = (evs, Raise e).
Proof.
  assert (forall study : study_arg,
    (exists evs e, _check_plot_args study target target_name = (evs, Raise e))
    <-> is_None target && existsb _is_multi_objective (studies_of study) = true)
    as Hraises.
  { intros study. rewrite check_plot_args_cases.
    destruct (is_None target && existsb _is_multi_objective (studies_of study)).
    - split; eauto.
    - split; [|discriminate]. intros (evs & e & H).
      destruct (negb (is_None target) && bool_decide (target_name = "Objective Value"));
        discriminate. }
  rewrite Hraises. simpl. rewrite andb_true_iff, existsb_exists. split.
  - intros [Hnone (s & Hin & Hs)]. exists s. split; [by apply list_elem_of_In|].
    apply Hraises. simpl. by rewrite Hnone, Hs.
  - intros (s & Hin & Hs). apply Hraises in Hs. simpl in Hs.
    apply andb_true_iff in Hs as [Hnone Hs]. rewrite orb_false_r in Hs.
    split; [done|]. exists s. split; [by apply list_elem_of_In|done].
Qed.

(** *** JSON compatibility and hover text, continued *)

(** X14.  Whatever [_make_json_compatible] returns is JSON-encodable, is
    left unchanged by a second application, and is the argument itself
    exactly when the argument is encodable.  The function returns exactly
    when [json.dumps] accepts the argument, or rejects it with [TypeError]
    while [str] gives a text for it; a [ValueError] of [json.dumps] (an
    integer of more than 4300 digits, a container that contains itself) is
    not caught: the function ends with it. *)
Theorem make_json_compatible_settles (x : pyval) :
  (forall y, _make_json_compatible x = Return y ->
     json_encodable y
     /\ _make_json_compatible y = Return y
     /\ (y = x <-> json_encodable x))
  /\ ((exists y, _make_json_compatible x = Return y)
      <-> json_encodable x \/ falls_back x)
  /\ (forall msg, Json.to_json x = Raise (ValueError msg) ->
        _make_json_compatible x = Raise (ValueError msg)).
Proof.
  split; [|split].
  - intros y Hy. pose proof (make_json_compatible_encodable _ _ Hy) as Henc.
    split; [exact Henc|]. split; [apply make_json_compatible_Return; by left|].
    apply make_json_compatible_Return in Hy as [[Hx ->]|(msg & s & Hx & _ & ->)];
      [done|].
    split; [intros <-; discriminate|intros [j Hj]; congruence].
  - apply make_json_compatible_returns.
  - intros msg Hx. by rewrite make_json_compatible_cases, Hx.
Qed.

Lemma compatible_items_encodable (d : list (string * pyval)) :
  Forall (fun kv => json_encodable kv.2) d -> compatible_items d = Return d.
Proof.
  unfold compatible_items.
  induction 1 as [|[k v] d [j Hj] _ IH]; [reflexivity|].
  rewrite traverse_cons. simpl in *.
  rewrite make_json_compatible_cases, Hj. simpl. rewrite IH. reflexivity.
Qed.

(** X15.  User attributes that are all JSON-encodable go into the hover
    text as they are: the text is the indented JSON text of the number, the
    values, the params and these very attributes, with its line breaks
    substituted. *)
Theorem hovertext_keeps_encodable_attrs (t : FrozenTrial) :
  Forall (fun kv => json_encodable kv.2) (user_attrs t) ->
  _make_hovertext t
  = text ← Json.dumps float_repr (Some 2%nat) (hover_dict t (user_attrs t));
    Return (str_replace NEWLINE LINE_BREAK text).
Proof.
  intros Henc. unfold _make_hovertext.
  rewrite compatible_items_encodable by done. reflexivity.
Qed.


End Utils.

(** ** The properties on the sample trials *)

Import Samples.

(** The trial that has "x" is not in the result, be it given once or
    twice; the trial that lacks "x" is. *)
Lemma skipped_trial_numbers_exact_witness :
  number_identifies [with_x; with_x; other_without_x]
  /\ complete_never_skipped [with_x; with_x; other_without_x] ["x"].
Proof.
  assert (number_identifies [with_x; with_x; other_without_x]) as Hid.
  { intros t t' Ht Ht' Hn. rewrite !elem_of_cons, elem_of_nil in Ht, Ht'.
    destruct Ht as [->|[->|[->|[]]]], Ht' as [->|[->|[->|[]]]];
      (reflexivity || discriminate Hn). }
  split; [exact Hid|].
  exact (proj2 (skipped_trial_numbers_exact [with_x; with_x; other_without_x] ["x"])
           Hid).
Defined.



(** "x" is log-scaled in the first trial and not in the second: the entry of
    the first trial stays. *)
Lemma preprocess_first_seen_wins_witness :
  _preprocess_trial_params [log_first; linear_second]
  = Return ({["x" := true; "c" := false]}, {["x" := true; "c" := false]})
  /\ ({["x" := true; "c" := false]} : gmap string bool) !! "x" = Some true.
Proof.
  assert (_preprocess_trial_params [log_first; linear_second]
          = Return ({["x" := true; "c" := false]}, {["x" := true; "c" := false]}))
    as Hrun by (vm_compute; reflexivity).
  split; [exact Hrun|].
  exact (proj2 (proj2 (preprocess_first_seen_wins _ _ _ Hrun))
           "x" log_first linear_second [] eq_refl eq_refl eq_refl).
Defined.

(** A batch of Float and Categorical distributions is classified. *)
Lemma preprocess_is_numerical_witness :
  Forall (fun item => known_kind item.2) (all_items [log_first; linear_second])
  /\ exists tables, _preprocess_trial_params [log_first; linear_second] = Return tables.
Proof.
  assert (Forall (fun item => known_kind item.2) (all_items [log_first; linear_second]))
    as Hknown by (repeat constructor).
  split; [exact Hknown|].
  exact (proj1 (proj2 (proj2 (preprocess_is_numerical [log_first; linear_second])))
           Hknown).
Defined.





(** A set among the parameter values makes [_make_hovertext] raise
    [TypeError]; the same set among the user attributes does not. *)
Lemma hovertext_raises_on_params_witness :
  (exists k v, (k, v) ∈ params set_param /\ ~ json_encodable v)
  /\ _make_hovertext Builtins.str Builtins.float_repr set_param
     = Raise (TypeError "Object of type set is not JSON serializable")
  /\ exists txt, _make_hovertext Builtins.str Builtins.float_repr set_attr = Return txt.
Proof.
  assert (exists k v, (k, v) ∈ params set_param /\ ~ json_encodable v) as Hparam.
  { exists "x", (VObj "set" 0). split; [by apply elem_of_cons; left|].
    intros [j Hj]. discriminate. }
  split; [exact Hparam|]. split.
  - destruct (hovertext_raises_on_params Builtins.str Builtins.float_repr
                set_param Hparam) as [_ Htype].
    destruct Htype as [_ [msg Hmsg]].
    + apply Nat.leb_le. vm_compute. reflexivity.
    + constructor; [right; eexists _, _; by split|constructor].
    + intros k v msg Hin. apply list_elem_of_singleton in Hin as [= _ ->].
      discriminate.
    + rewrite Hmsg. vm_compute in Hmsg. injection Hmsg as <-. reflexivity.
  - eexists. vm_compute. reflexivity.
Defined.



(** ** The further properties on the sample trials *)

Import EdgeSamples.

(** The two tables of the sample batch have the keys "x" and "c". *)
Lemma preprocess_same_keys_witness :
  _preprocess_trial_params [log_first; linear_second]
  = Return ({["x" := true; "c" := false]}, {["x" := true; "c" := false]})
  /\ dom ({["x" := true; "c" := false]} : gmap string bool)
     = dom ({["x" := true; "c" := false]} : gmap string bool).
Proof.
  assert (_preprocess_trial_params [log_first; linear_second]
          = Return ({["x" := true; "c" := false]}, {["x" := true; "c" := false]}))
    as Hrun by (vm_compute; reflexivity).
  split; [exact Hrun|].
  exact (proj1 (preprocess_same_keys _ _ _ Hrun)).
Defined.

(** "x" is found log-scaled, hence numerical, in the sample batch. *)
Lemma lookups_after_preprocess_witness :
  _is_log_scale [log_first; linear_second] "x" {["x" := true; "c" := false]} = true
  /\ _is_numerical [log_first; linear_second] "x" {["x" := true; "c" := false]} = true.
Proof.
  assert (_preprocess_trial_params [log_first; linear_second]
          = Return ({["x" := true; "c" := false]}, {["x" := true; "c" := false]}))
    as Hrun by (vm_compute; reflexivity).
  assert (_is_log_scale [log_first; linear_second] "x" {["x" := true; "c" := false]}
          = true) as Hlog by reflexivity.
  split; [exact Hlog|].
  exact (proj2 (lookups_after_preprocess _ _ _ "x" Hrun) Hlog).
Defined.

(** A later trial with a distribution of another class for "x" is
    absorbed. *)
Lemma preprocess_absorbs_seen_names_witness :
  _preprocess_trial_params ([log_first; linear_second] ++ [other_for_x])
  = Return ({["x" := true; "c" := false]}, {["x" := true; "c" := false]}).
Proof.
  apply preprocess_absorbs_seen_names.
  - vm_compute. reflexivity.
  - intros t p d Ht Hd. apply list_elem_of_singleton in Ht as ->.
    apply list_elem_of_singleton in Hd as [= -> ->].
    exists log_first, (FloatDistribution true).
    split; by apply elem_of_cons; left.
Defined.

(** The same trial first makes the batch fail, whatever follows. *)
Lemma preprocess_failure_is_final_witness :
  _preprocess_trial_params ([other_for_x] ++ [log_first])
  = Raise (AssertionError "Unexpected distribution type in trial parameter.").
Proof. apply preprocess_failure_is_final. reflexivity. Defined.

(** A trial given twice is classified as the trial given once. *)
Lemma preprocess_order_irrelevant_witness :
  _preprocess_trial_params [linear_second; linear_second]
  = Return ({["x" := false; "c" := false]}, {["x" := true; "c" := false]}).
Proof.
  apply (preprocess_order_irrelevant [linear_second]).
  - intros t. rewrite !elem_of_cons. tauto.
  - intros p d d'. unfold all_items. simpl. rewrite !elem_of_cons, !elem_of_nil.
    intros [H|[H|[]]] [H'|[H'|[]]]; simplify_eq; done.
  - vm_compute. reflexivity.
Defined.

(** Filtering again what was kept of the two sample trials. *)
Lemma filter_nonfinite_idempotent_witness :
  _filter_nonfinite Builtins.repr Builtins.float_of_str Builtins.float_of_obj [t_one] None true
  = ([], Return [t_one]).
Proof.
  apply (filter_nonfinite_idempotent Builtins.repr Builtins.float_of_str
           Builtins.float_of_obj [t_inf; t_one] None true true
           [logger_warning
              "Trial 0 is omitted in visualization because its objective value is inf or nan."]).
  reflexivity.
Defined.

(** One message and one kept trial for the two sample trials. *)
Lemma filter_nonfinite_accounts_witness :
  (1 + 1 = 2)%nat
  /\ _filter_nonfinite Builtins.repr Builtins.float_of_str Builtins.float_of_obj [t_inf; t_one] None false
     = ([], Return [t_one]).
Proof.
  apply (filter_nonfinite_accounts Builtins.repr Builtins.float_of_str
           Builtins.float_of_obj [t_inf; t_one] None
           [logger_warning
              "Trial 0 is omitted in visualization because its objective value is inf or nan."]
           [t_one]).
  reflexivity.
Defined.


(** The encodable attributes of the sample trial appear as they are. *)
Lemma hovertext_keeps_encodable_attrs_witness :
  _make_hovertext Builtins.str Builtins.float_repr plain_attrs
  = text ← Json.dumps Builtins.float_repr (Some 2%nat)
             (hover_dict plain_attrs (user_attrs plain_attrs));
    Return (str_replace NEWLINE LINE_BREAK text).
Proof.
  apply hovertext_keeps_encodable_attrs.
  repeat constructor; eexists; reflexivity.
Defined.

(** An integer of 4301 digits and a list that contains itself end
    [_make_json_compatible] with the [ValueError] of [json.dumps]. *)
Lemma make_json_compatible_settles_witness :
  _make_json_compatible Builtins.str Builtins.float_repr huge_int
  = Raise (ValueError
      ("Exceeds the limit (4300 digits) for integer string conversion; " +:+
       "use sys.set_int_max_str_digits() to increase the limit"))
  /\ _make_json_compatible Builtins.str Builtins.float_repr (VCyclic "list" 0)
     = Raise (ValueError "Circular reference detected").
Proof.
  split.
  - apply (proj2 (proj2 (make_json_compatible_settles Builtins.str Builtins.float_repr
                           huge_int))).
    unfold huge_int. rewrite to_json_int, int_repr_huge; [reflexivity|].
    rewrite Z.abs_eq by (apply Z.pow_nonneg; discriminate). apply Z.le_refl.
  - apply (proj2 (proj2 (make_json_compatible_settles Builtins.str Builtins.float_repr
                           (VCyclic "list" 0)))).
    reflexivity.
Defined.

